(** * Credit ledger and metered generation gateway of Banner-Creator-Outdoors

    A shallow embedding of the backend request handlers of the banner editor:
    the development server handlers ([server-proxy.ts], two revisions) and the
    Cloud Function entry point ([functions/src/index.ts]).

    Conventions of the embedding.
    - A Firestore document of the [users] collection is a record [Account];
      the collection is a finite map from document id (the email) to record.
      This is exact for the ids that storage takes literally ([literalId]):
      the statements about an email that may have no account are made for
      those ids.
    - JavaScript numbers that hold credit balances are integers ([Z]).
    - An [async] function is a function from the state of the outside world
      to an outcome (a returned value or a thrown [Error] with its message)
      and the world after it.
    - Every storage round trip may reject: the world carries the schedule of
      the faults the storage layer will raise, one entry per round trip.
    - The generation provider and the payment processor are oracles of the
      configuration; every provider call is appended to a log.
    - A statement about a handler as an [async] function is about a request
      that is handled on its own. Requests in flight at once are tasks that
      move from one awaited call to the next in any order ([runPool]). *)

From Stdlib Require Import ZArith String List Bool Lia.
From stdpp Require Import base option gmap strings.
Import ListNotations.

Local Open Scope string_scope.
Local Open Scope Z_scope.

(** ** JavaScript helpers *)

(** [s.includes(needle)] *)
Fixpoint includes (needle s : string) : bool :=
  String.prefix needle s ||
  match s with
  | EmptyString => false
  | String _ rest => includes needle rest
  end.

(** [a || b] on numbers: [0] is falsy. *)
Definition jsOr (a b : Z) : Z := if Z.eqb a 0 then b else a.

(** [s || d] on strings: the empty string is falsy. *)
Definition orElse (s d : string) : string := if String.eqb s "" then d else s.

(** Truthiness of an optional string field: missing and empty are falsy. *)
Definition truthy (field : option string) : option string :=
  match field with
  | Some s => if String.eqb s "" then None else Some s
  | None => None
  end.

(** ** Data model *)

(** [createdAt]: a point in time, or the [FieldValue.serverTimestamp()]
    sentinel as it stands in an object that was handed to [set]. *)
Inductive Timestamp : Type :=
  | TimeAt (t : Z)
  | ServerTimestampSentinel.

Record Account : Type := mkAccount {
  email : string;
  credits : Z;
  isPro : bool;
  createdAt : Timestamp
}.

(** A write to the [credits] field: a plain value or
    [FieldValue.increment(n)]. *)
Inductive CreditsWrite : Type :=
  | SetTo (c : Z)
  | Increment (n : Z).

(** The object given to [update]: only the listed fields are written. *)
Record Patch : Type := mkPatch {
  patchCredits : option CreditsWrite;
  patchIsPro : option bool
}.

Definition writeCredits (wr : CreditsWrite) (old : Z) : Z :=
  match wr with
  | SetTo c => c
  | Increment n => old + n
  end.

Definition applyPatch (p : Patch) (a : Account) : Account :=
  {| email := email a;
     credits := match patchCredits p with
                | Some wr => writeCredits wr (credits a)
                | None => credits a
                end;
     isPro := match patchIsPro p with
              | Some b => b
              | None => isPro a
              end;
     createdAt := createdAt a |}.

(** What the storage layer does with the sentinel when it stores a record. *)
Definition resolveTimestamp (now : Z) (a : Account) : Account :=
  {| email := email a;
     credits := credits a;
     isPro := isPro a;
     createdAt := match createdAt a with
                  | ServerTimestampSentinel => TimeAt now
                  | TimeAt t => TimeAt t
                  end |}.

(** ** The generation provider *)

Record InlineData : Type := mkInlineData {
  mimeType : string;
  data : string
}.

Record Part : Type := mkPart {
  text : option string;
  inlineData : option InlineData
}.

Record Content : Type := mkContent { parts : option (list Part) }.

Record Candidate : Type := mkCandidate { content : option Content }.

Record GenerateContentResponse : Type := mkGenResponse {
  candidates : option (list Candidate)
}.

(** One provider call either resolves with a response or rejects with an
    [Error] (provider error, network failure, timeout). *)
Inductive ProviderOutcome : Type :=
  | Resolves (r : GenerateContentResponse)
  | Rejects (message : string).

(** ** The payment processor *)

Record TokenResponse : Type := mkTokenResponse {
  ok : bool;
  errorText : string;
  access_token : string
}.

Record CaptureData : Type := mkCaptureData { captureStatus : option string }.

Inductive FetchOutcome (A : Type) : Type :=
  | Fetched (a : A)
  | FetchFails (message : string).
Arguments Fetched {A} a.
Arguments FetchFails {A} message.

(** ** Configuration and world *)

Inductive Backend : Type :=
  | Firestore
  | MockDb.

Record Env : Type := mkEnv {
  backend : Backend;
  now : Z;
  API_KEY : option string;
  GEMINI_API_KEY : option string;
  PAYPAL_CLIENT_ID : option string;
  PAYPAL_CLIENT_SECRET : option string;
  (* model name, prompt text *)
  generateContent : string -> string -> ProviderOutcome;
  tokenFetch : FetchOutcome TokenResponse;
  (* order id, access token *)
  captureFetch : string -> string -> FetchOutcome CaptureData
}.

Record World : Type := mkWorld {
  config : Env;
  users : gmap string Account;
  storageFaults : list (option string);
  providerLog : list (string * string)
}.

Definition setUsers (u : gmap string Account) (w : World) : World :=
  {| config := config w; users := u;
     storageFaults := storageFaults w; providerLog := providerLog w |}.

Definition setFaults (f : list (option string)) (w : World) : World :=
  {| config := config w; users := users w;
     storageFaults := f; providerLog := providerLog w |}.

Definition logCall (model prompt : string) (w : World) : World :=
  {| config := config w; users := users w;
     storageFaults := storageFaults w;
     providerLog := providerLog w ++ [(model, prompt)] |}.

(** ** Asynchronous computations that may throw *)

Inductive Outcome (A : Type) : Type :=
  | Returned (a : A)
  | Thrown (message : string).
Arguments Returned {A} a.
Arguments Thrown {A} message.

Definition Async (A : Type) : Type := World -> Outcome A * World.

Definition ret {A} (a : A) : Async A := fun w => (Returned a, w).

Definition throw {A} (message : string) : Async A :=
  fun w => (Thrown message, w).

Definition bind {A B} (m : Async A) (k : A -> Async B) : Async B :=
  fun w =>
    match m w with
    | (Returned a, w') => k a w'
    | (Thrown msg, w') => (Thrown msg, w')
    end.

(** [try { body } catch (error) { handler(error.message) }] *)
Definition tryCatch {A} (body : Async A) (handler : string -> Async A)
  : Async A :=
  fun w =>
    match body w with
    | (Returned a, w') => (Returned a, w')
    | (Thrown msg, w') => handler msg w'
    end.

Notation "'await' x <- m ; k" := (bind m (fun x => k))
  (at level 10, x name, m at level 100, k at level 200).

Definition getConfig : Async Env := fun w => (Returned (config w), w).

(** ** The storage layer *)

(** One round trip to storage: the next scheduled fault, if any, rejects it
    before it has any effect. *)
Definition storageCall {A} (op : Async A) : Async A :=
  fun w =>
    match storageFaults w with
    | Some msg :: rest => (Thrown msg, setFaults rest w)
    | None :: rest => op (setFaults rest w)
    | [] => op w
    end.

(** [userRef.get()]: [None] is a snapshot with [exists = false]. *)
Definition docGet (id : string) : Async (option Account) :=
  storageCall (fun w => (Returned (users w !! id), w)).

(** [userRef.set(data)] *)
Definition docSet (id : string) (a : Account) : Async unit :=
  storageCall (fun w =>
    (Returned tt, setUsers (<[id := resolveTimestamp (now (config w)) a]> (users w)) w)).

(** [update] of a field map. Firestore rejects the update of a document that
    does not exist; the mock ignores it. *)
Definition updateIn (b : Backend) (id : string) (p : Patch)
    (u : gmap string Account) : Outcome unit * gmap string Account :=
  match u !! id with
  | Some a => (Returned tt, <[id := applyPatch p a]> u)
  | None =>
      match b with
      | Firestore => (Thrown "NOT_FOUND: No document to update", u)
      | MockDb => (Returned tt, u)
      end
  end.

(** [userRef.update(data)] *)
Definition docUpdate (id : string) (p : Patch) : Async unit :=
  storageCall (fun w =>
    let '(r, u) := updateIn (backend (config w)) id p (users w) in
    (r, setUsers u w)).

(** A transaction body works on the collection through the handle [t]. *)
Definition Txn (A : Type) : Type :=
  Backend -> gmap string Account -> Outcome A * gmap string Account.

Definition tret {A} (a : A) : Txn A := fun _ u => (Returned a, u).

Definition tthrow {A} (message : string) : Txn A :=
  fun _ u => (Thrown message, u).

Definition tbind {A B} (m : Txn A) (k : A -> Txn B) : Txn B :=
  fun b u =>
    match m b u with
    | (Returned a, u') => k a b u'
    | (Thrown msg, u') => (Thrown msg, u')
    end.

Notation "'tawait' x <- m ; k" := (tbind m (fun x => k))
  (at level 10, x name, m at level 100, k at level 200).

(** [t.get(ref)] *)
Definition tGet (id : string) : Txn (option Account) :=
  fun _ u => (Returned (u !! id), u).

(** [t.update(ref, data)] *)
Definition tUpdate (id : string) (p : Patch) : Txn unit :=
  fun b u => updateIn b id p u.

(** [db.runTransaction(body)]: the body runs in isolation on the collection
    and its writes are committed together. When the body throws, Firestore
    commits nothing; the mock has already applied the writes made so far. *)
Definition runTransaction {A} (body : Txn A) : Async A :=
  storageCall (fun w =>
    match body (backend (config w)) (users w) with
    | (Returned a, u') => (Returned a, setUsers u' w)
    | (Thrown msg, u') =>
        (Thrown msg,
         match backend (config w) with
         | Firestore => w
         | MockDb => setUsers u' w
         end)
    end).

(** ** Requests and responses *)

Record RequestBody : Type := mkBody {
  bodyEmail : option string;
  bodyTheme : option string;
  bodyPrompt : option string;
  bodyOrderID : option string;
  bodyAmount : option Z
}.

Record Request : Type := mkRequest {
  method : string;
  queryEmail : option string;
  body : RequestBody
}.

Inductive Json : Type :=
  | JMessage (message : string)
  | JError (error : string)
  | JUser (a : Account)
  | JCredits (c : Z)
  | JImage (imageUrl : string) (c : Z)
  | JCapture (success : bool) (captureData : CaptureData).

Record Response : Type := mkResponse {
  status : Z;
  json : Json
}.

(** [res.status(code).json(payload)] *)
Definition respond (code : Z) (payload : Json) : Async Response :=
  ret {| status := code; json := payload |}.

Definition isMethod (req : Request) (m : string) : bool :=
  String.eqb (method req) m.

(** [error.message === "Insufficient credits" ? 403 : 500] *)
Definition statusOfError (message : string) : Z :=
  if String.eqb message "Insufficient credits" then 403 else 500.

(** ** The provider call and the extraction of the image *)

(** [ai.models.generateContent({ model, contents })]: one call, logged. *)
Definition callProvider (model prompt : string)
  : Async GenerateContentResponse :=
  fun w =>
    match generateContent (config w) model prompt with
    | Resolves r => (Returned r, logCall model prompt w)
    | Rejects msg => (Thrown msg, logCall model prompt w)
    end.

(** The loop over the parts: the first part with inline data gives the URL. *)
Fixpoint firstInlineData (ps : list Part) : option string :=
  match ps with
  | [] => None
  | part :: rest =>
      match inlineData part with
      | Some d =>
          Some (String.append "data:"
                  (String.append (mimeType d)
                     (String.append ";base64," (data d))))
      | None => firstInlineData rest
      end
  end.

(** [response.candidates?.[0]?.content?.parts], then the loop. *)
Definition extractImage (response : GenerateContentResponse)
  : option string :=
  match candidates response with
  | Some (candidate :: _) =>
      match content candidate with
      | Some c =>
          match parts c with
          | Some ps => firstInlineData ps
          | None => None
          end
      | None => None
      end
  | _ => None
  end.

(** ** server-proxy.ts *)

Module ServerProxy.

Definition getOrCreateUser (email : string) : Async Account :=
  await doc <- docGet email ;
  match doc with
  | None =>
      await cfg <- getConfig ;
      let newUser := mkAccount email 5 false (TimeAt (now cfg)) in
      await _ <- docSet email newUser ;
      ret newUser
  | Some userData => ret userData
  end.

Definition generatePayPalAccessToken : Async string :=
  await cfg <- getConfig ;
  match truthy (PAYPAL_CLIENT_ID cfg), truthy (PAYPAL_CLIENT_SECRET cfg) with
  | Some _, Some _ =>
      match tokenFetch cfg with
      | FetchFails msg => throw msg
      | Fetched response =>
          if ok response then ret (access_token response)
          else throw (String.append "Failed to generate Access Token: "
                        (errorText response))
      end
  | _, _ => throw "PayPal credentials are not configured."
  end.

Definition isCompleted (captureData : CaptureData) : bool :=
  match captureStatus captureData with
  | Some s => String.eqb s "COMPLETED"
  | None => false
  end.

(** The body of the transaction of [handleCapturePayPalOrder]. *)
Definition grantTransaction (email : string) : Txn unit :=
  tawait doc <- tGet email ;
  match doc with
  | Some userData =>
      tUpdate email
        {| patchCredits := Some (SetTo (jsOr (credits userData) 0 + 100));
           patchIsPro := Some true |}
  | None => tret tt
  end.

Definition handleCapturePayPalOrder (req : Request) : Async Response :=
  if negb (isMethod req "POST")
  then respond 405 (JMessage "Method Not Allowed")
  else
    tryCatch
      (match truthy (bodyOrderID (body req)),
             truthy (bodyEmail (body req)) with
       | Some orderID, Some email =>
           await accessToken <- generatePayPalAccessToken ;
           await cfg <- getConfig ;
           match captureFetch cfg orderID accessToken with
           | FetchFails msg => throw msg
           | Fetched captureData =>
               if isCompleted captureData then
                 await _ <- runTransaction (grantTransaction email) ;
                 respond 200 (JCapture true captureData)
               else respond 400 (JCapture false captureData)
           end
       | _, _ => respond 400 (JMessage "Missing orderID or email")
       end)
      (fun message => respond 500 (JError message)).

Definition handleGetUser (req : Request) : Async Response :=
  if negb (isMethod req "GET")
  then respond 405 (JMessage "Method Not Allowed")
  else
    match truthy (queryEmail req) with
    | None => respond 400 (JMessage "Email is required")
    | Some email =>
        tryCatch
          (await userData <- getOrCreateUser email ;
           respond 200 (JUser userData))
          (fun _ => respond 500 (JMessage "Failed to fetch user profile"))
    end.

(** The body of the transaction of [handleDeductCredit]; it yields the value
    the handler keeps in [newCredits]. *)
Definition deductTransaction (email : string) (amount : Z) : Txn Z :=
  tawait doc <- tGet email ;
  match doc with
  | None => tthrow "User not found"
  | Some userData =>
      if credits userData <? amount then tthrow "Insufficient credits"
      else
        let newCredits := credits userData - amount in
        tawait _ <- tUpdate email
                      {| patchCredits := Some (SetTo newCredits);
                         patchIsPro := None |} ;
        tret newCredits
  end.

Definition handleDeductCredit (req : Request) : Async Response :=
  if negb (isMethod req "POST")
  then respond 405 (JMessage "Method Not Allowed")
  else
    let amount := 1 in
    match truthy (bodyEmail (body req)) with
    | None => respond 400 (JMessage "Email is required")
    | Some email =>
        tryCatch
          (await newCredits <- runTransaction (deductTransaction email amount) ;
           respond 200 (JCredits newCredits))
          (fun message =>
             respond (statusOfError message)
               (JMessage (orElse message "Internal Server Error")))
    end.

(** The body of the transaction of [handleRefundCredit]. *)
Definition refundTransaction (email : string) (amount : Z) : Txn Z :=
  tawait doc <- tGet email ;
  match doc with
  | None => tthrow "User not found"
  | Some userData =>
      let newCredits := credits userData + amount in
      tawait _ <- tUpdate email
                    {| patchCredits := Some (SetTo newCredits);
                       patchIsPro := None |} ;
      tret newCredits
  end.

Definition handleRefundCredit (req : Request) : Async Response :=
  if negb (isMethod req "POST")
  then respond 405 (JMessage "Method Not Allowed")
  else
    let amount := 1 in
    match truthy (bodyEmail (body req)) with
    | None => respond 400 (JMessage "Email is required")
    | Some email =>
        tryCatch
          (await newCredits <- runTransaction (refundTransaction email amount) ;
           respond 200 (JCredits newCredits))
          (fun message =>
             respond 500 (JMessage (orElse message "Internal Server Error")))
    end.

(** [process.env.GEMINI_API_KEY || process.env.API_KEY], then [!apiKey]. *)
Definition apiKeyOf (cfg : Env) : option string :=
  match truthy (GEMINI_API_KEY cfg) with
  | Some k => Some k
  | None => truthy (API_KEY cfg)
  end.

(** The refund condition of the [catch] block of [handleGenerateBackground]. *)
Definition refundEligible (message : string) : bool :=
  String.eqb message "AI returned no image" || includes "GoogleGenAI" message.

(** The [try] block of [handleGenerateBackground]. *)
Definition generateBackgroundBody (prompt email : string) : Async Response :=
  await _ <- runTransaction (deductTransaction email 1) ;
  await cfg <- getConfig ;
  match apiKeyOf cfg with
  | None => throw "API Key not found"
  | Some _ =>
      await response <- callProvider "gemini-2.5-flash-image" prompt ;
      match extractImage response with
      | None => throw "AI returned no image"
      | Some imageUrl =>
          await finalUserDoc <- docGet email ;
          let currentCredits :=
            match finalUserDoc with
            | Some userData => jsOr (credits userData) 0
            | None => 0
            end in
          respond 200 (JImage imageUrl currentCredits)
      end
  end.

(** The refund of the [catch] block, inside its own [try]/[catch]. *)
Definition refund (email : string) : Async unit :=
  tryCatch
    (await doc <- docGet email ;
     match doc with
     | Some userData =>
         docUpdate email
           {| patchCredits := Some (SetTo (jsOr (credits userData) 0 + 1));
              patchIsPro := None |}
     | None => ret tt
     end)
    (fun _ => ret tt).

Definition handleGenerateBackground (req : Request) : Async Response :=
  if negb (isMethod req "POST")
  then respond 405 (JMessage "Method Not Allowed")
  else
    match truthy (bodyPrompt (body req)), truthy (bodyEmail (body req)) with
    | Some prompt, Some email =>
        tryCatch
          (generateBackgroundBody prompt email)
          (fun message =>
             await _ <- (if refundEligible message then refund email
                         else ret tt) ;
             respond (statusOfError message)
               (JMessage (orElse message "Internal Server Error")))
    | _, _ => respond 400 (JMessage "Prompt and Email are required")
    end.

(** The reply of [handleGeneratePrompt]: its success body has the fields
    [prompt] and [credits]. *)
Inductive PromptJson : Type :=
  | PPrompt (prompt : option string) (c : Z)
  | PMessage (message : string).

Record PromptResponse : Type := mkPromptResponse {
  promptStatus : Z;
  promptJson : PromptJson
}.

(** The template literal of [handleGeneratePrompt]. *)
Definition promptInstructionOf (theme : string) : string :=
  String.append
    "You are an expert AI image prompt engineer. Generate a highly detailed, hyper-realistic image generation prompt for an outdoor clothing brand banner. 
The theme is: "
    (String.append theme
       ".
CRITICAL REQUIREMENT: The prompt MUST specify that the main subject (a person wearing outdoor gear) is positioned on the extreme RIGHT third of the frame, leaving the left two-thirds completely empty/clear for text placement.
The prompt should describe the lighting, atmosphere, and camera style (high-end retail photography).
Do not include any conversational text, just the prompt itself.").

(** The [try] block of [handleGeneratePrompt]. [textOf] is the [text]
    accessor of the provider's response object; reading [credits] off the
    data of a snapshot that does not exist is a [TypeError]. *)
Definition generatePromptBody
    (textOf : GenerateContentResponse -> option string)
    (theme email : string) : Async PromptResponse :=
  await _ <- runTransaction (deductTransaction email 1) ;
  await cfg <- getConfig ;
  match apiKeyOf cfg with
  | None => throw "API Key not found"
  | Some _ =>
      await response <- callProvider "gemini-3-flash-preview"
                          (promptInstructionOf theme) ;
      await doc <- docGet email ;
      match doc with
      | Some userData =>
          ret {| promptStatus := 200;
                 promptJson := PPrompt (textOf response) (credits userData) |}
      | None =>
          throw "Cannot read properties of undefined (reading 'credits')"
      end
  end.

Definition handleGeneratePrompt
    (textOf : GenerateContentResponse -> option string)
    (req : Request) : Async PromptResponse :=
  if negb (isMethod req "POST")
  then ret {| promptStatus := 405;
              promptJson := PMessage "Method Not Allowed" |}
  else
    match truthy (bodyTheme (body req)), truthy (bodyEmail (body req)) with
    | Some theme, Some email =>
        tryCatch
          (generatePromptBody textOf theme email)
          (fun message =>
             ret {| promptStatus := 500;
                    promptJson :=
                      PMessage (orElse message "Internal Server Error") |})
    | _, _ =>
        ret {| promptStatus := 400;
               promptJson := PMessage "Theme and Email are required" |}
    end.

End ServerProxy.

(** ** functions/src/index.ts *)

Module CloudFunction.

Definition getOrCreateUser (email : string) : Async Account :=
  await doc <- docGet email ;
  match doc with
  | None =>
      let newUser := mkAccount email 5 false ServerTimestampSentinel in
      await _ <- docSet email newUser ;
      ret newUser
  | Some userData => ret userData
  end.

(** [app.get('/api/user')] *)
Definition getUser (req : Request) : Async Response :=
  match truthy (queryEmail req) with
  | None => respond 400 (JMessage "Email is required")
  | Some email =>
      tryCatch
        (await userData <- getOrCreateUser email ;
         respond 200 (JUser userData))
        (fun _ => respond 500 (JMessage "Failed to fetch user profile"))
  end.

(** The template literal of the route. *)
Definition promptOf (theme : string) : string :=
  String.append
    "Hyper-realistic, high-fidelity professional photography of a man wearing a high-performance waterproof outdoor jacket walking on a scenic mountain trek trail. 
      CRITICAL COMPOSITION: The man MUST be positioned on the extreme RIGHT third of the frame. 
      The left two-thirds of the image MUST remain clear of any major subjects to allow for text placement.
      Theme: "
    (String.append theme
       ". 
      Atmosphere: Bright natural daylight, cinematic lighting, sharp crisp details, vibrant colors. 
      Style: High-end retail brand photography for an outdoor gear company. 
      No text, no watermarks, no logos in the image. Masterpiece quality.").

(** The body of the transaction of the route: nothing is returned. *)
Definition deductTransaction (email : string) : Txn unit :=
  tawait doc <- tGet email ;
  match doc with
  | None => tthrow "User not found"
  | Some userData =>
      if credits userData <? 1 then tthrow "Insufficient credits"
      else
        tUpdate email
          {| patchCredits := Some (SetTo (credits userData - 1));
             patchIsPro := None |}
  end.

(** The refund condition of the [catch] block of the route. *)
Definition refundEligible (message : string) : bool :=
  includes "AI" message || includes "GoogleGenAI" message.

(** The [try] block of the route. *)
Definition generateBackgroundBody (theme email : string) : Async Response :=
  await _ <- runTransaction (deductTransaction email) ;
  await response <- callProvider "gemini-2.5-flash-image" (promptOf theme) ;
  match extractImage response with
  | None => throw "AI returned no image"
  | Some imageUrl =>
      await finalUserDoc <- docGet email ;
      let currentCredits :=
        match finalUserDoc with
        | Some userData => jsOr (credits userData) 0
        | None => 0
        end in
      respond 200 (JImage imageUrl currentCredits)
  end.

(** The refund of the [catch] block, inside its own [try]/[catch]. *)
Definition refund (email : string) : Async unit :=
  tryCatch
    (docUpdate email
       {| patchCredits := Some (Increment 1); patchIsPro := None |})
    (fun _ => ret tt).

(** [app.post('/api/generate-background')] *)
Definition generateBackground (req : Request) : Async Response :=
  match truthy (bodyTheme (body req)), truthy (bodyEmail (body req)) with
  | Some theme, Some email =>
      await cfg <- getConfig ;
      match truthy (API_KEY cfg) with
      | None =>
          respond 500 (JMessage "Server misconfiguration: API Key missing")
      | Some _ =>
          tryCatch
            (generateBackgroundBody theme email)
            (fun message =>
               await _ <- (if refundEligible message then refund email
                           else ret tt) ;
               respond (statusOfError message)
                 (JMessage (orElse message "Internal Server Error")))
      end
  | _, _ => respond 400 (JMessage "Theme and Email are required")
  end.

End CloudFunction.

(** ** Requests in flight

    Several requests are handled at once: a handler runs until it awaits the
    outside world, and while it waits the other handlers move. A handler in
    flight is therefore a task: either it has finished, or it awaits one
    call and resumes with the outcome. A call to storage takes effect as a
    whole when it is made; [db.runTransaction] is one such call, which is
    what Firestore's isolation of transactions provides (a transaction
    that it aborts, for contention or otherwise, rejects like any other
    failed call). A [get] followed by an [update] are two calls, and other
    tasks may move between them. *)

Inductive Task (A : Type) : Type :=
  | Finished (result : Outcome A)
  | Awaiting (X : Type) (call : Async X) (resume : Outcome X -> Task A).
Arguments Finished {A} result.
Arguments Awaiting {A} X call resume.

(** A task run on its own, with nothing else in flight. *)
Fixpoint runAlone {A} (t : Task A) : Async A :=
  match t with
  | Finished result => fun w => (result, w)
  | Awaiting _ call resume =>
      fun w => let '(x, w') := call w in runAlone (resume x) w'
  end.

Module InFlight.

(** What [handleDeductCredit] does with the outcome of its transaction. *)
Definition deductAnswer (outcome : Outcome Z) : Task Response :=
  match outcome with
  | Returned newCredits =>
      Finished (Returned {| status := 200; json := JCredits newCredits |})
  | Thrown message =>
      Finished (Returned {| status := statusOfError message;
                            json := JMessage
                                      (orElse message
                                         "Internal Server Error") |})
  end.

(** [handleDeductCredit], with its one await. *)
Definition handleDeductCredit (req : Request) : Task Response :=
  if negb (isMethod req "POST")
  then Finished (Returned {| status := 405;
                             json := JMessage "Method Not Allowed" |})
  else
    let amount := 1 in
    match truthy (bodyEmail (body req)) with
    | None =>
        Finished (Returned {| status := 400;
                              json := JMessage "Email is required" |})
    | Some email =>
        Awaiting Z
          (runTransaction (ServerProxy.deductTransaction email amount))
          deductAnswer
    end.

(** The refund of the [catch] block of [handleGenerateBackground], with its
    two awaits: the [get], then the [update]. *)
Definition refund (email : string) : Task unit :=
  Awaiting (option Account) (docGet email)
    (fun read =>
       match read with
       | Returned (Some userData) =>
           Awaiting unit
             (docUpdate email
                {| patchCredits :=
                     Some (SetTo (jsOr (credits userData) 0 + 1));
                   patchIsPro := None |})
             (fun _ => Finished (Returned tt))
       | Returned None => Finished (Returned tt)
       | Thrown _ => Finished (Returned tt)
       end).

(** [getOrCreateUser], with its two awaits: the [get], then the [set] of
    the new account. [k] is what the caller does with the outcome. *)
Definition getOrCreateUser {A} (email : string)
    (k : Outcome Account -> Task A) : Task A :=
  Awaiting (option Account * Env)
    (await doc <- docGet email ;
     await cfg <- getConfig ;
     ret (doc, cfg))
    (fun read =>
       match read with
       | Returned (Some userData, _) => k (Returned userData)
       | Returned (None, cfg) =>
           let newUser := mkAccount email 5 false (TimeAt (now cfg)) in
           Awaiting unit (docSet email newUser)
             (fun written =>
                match written with
                | Returned _ => k (Returned newUser)
                | Thrown message => k (Thrown message)
                end)
       | Thrown message => k (Thrown message)
       end).

(** [handleGetUser], with the awaits of [getOrCreateUser]. *)
Definition handleGetUser (req : Request) : Task Response :=
  if negb (isMethod req "GET")
  then Finished (Returned {| status := 405;
                             json := JMessage "Method Not Allowed" |})
  else
    match truthy (queryEmail req) with
    | None =>
        Finished (Returned {| status := 400;
                              json := JMessage "Email is required" |})
    | Some email =>
        getOrCreateUser email
          (fun outcome =>
             match outcome with
             | Returned userData =>
                 Finished (Returned {| status := 200;
                                       json := JUser userData |})
             | Thrown _ =>
                 Finished (Returned
                             {| status := 500;
                                json := JMessage
                                          "Failed to fetch user profile" |})
             end)
    end.

End InFlight.

(** A handler that moves in one step: nothing else moves between its
    calls. *)
Definition inOneStep {A} (handler : Async A) : Task A :=
  Awaiting A handler Finished.

(** The task at index [i] makes its pending call, if it has one. *)
Definition stepAt {A} (i : nat) (pool : list (Task A)) (w : World)
  : list (Task A) * World :=
  match pool !! i with
  | Some (Awaiting _ call resume) =>
      let '(x, w') := call w in (<[i := resume x]> pool, w')
  | _ => (pool, w)
  end.

(** The tasks move in the order the schedule gives. *)
Fixpoint runPool {A} (schedule : list nat) (pool : list (Task A)) (w : World)
  : list (Task A) * World :=
  match schedule with
  | [] => (pool, w)
  | i :: rest =>
      let '(pool', w') := stepAt i pool w in runPool rest pool' w'
  end.






(** A reservation request for [e]: a POST whose body names [e]. *)
Definition reserves (e : string) (req : Request) : Prop :=
  isMethod req "POST" = true /\ truthy (bodyEmail (body req)) = Some e.

(** ** The ledger invariant *)

Definition nonNegative (u : gmap string Account) : Prop :=
  map_Forall (fun _ a => 0 <= credits a) u.



(** The record [a] with its balance replaced. *)
Definition withCredits (c : Z) (a : Account) : Account :=
  {| email := email a; credits := c; isPro := isPro a;
     createdAt := createdAt a |}.

(** ** Sample configurations *)

Module Sample.

Definition address : string := "a@x.com".

Definition account (balance : Z) : Account :=
  mkAccount address balance false (TimeAt 1700000000).

(** An image response: a text part, then a part with inline data. *)
Definition imageResponse : GenerateContentResponse :=
  mkGenResponse
    (Some [mkCandidate
             (Some (mkContent
                      (Some [mkPart (Some "caption") None;
                             mkPart None
                               (Some (mkInlineData "image/png" "QUJD"))])))]).

(** A response without any candidate. *)
Definition emptyResponse : GenerateContentResponse := mkGenResponse None.

Definition env (b : Backend) (p : ProviderOutcome)
    (capture : FetchOutcome CaptureData) : Env :=
  {| backend := b;
     now := 1700000100;
     API_KEY := Some "key";
     GEMINI_API_KEY := None;
     PAYPAL_CLIENT_ID := Some "client";
     PAYPAL_CLIENT_SECRET := Some "secret";
     generateContent := fun _ _ => p;
     tokenFetch := Fetched (mkTokenResponse true "" "token");
     captureFetch := fun _ _ => capture |}.

Definition completed : FetchOutcome CaptureData :=
  Fetched (mkCaptureData (Some "COMPLETED")).

Definition declined : FetchOutcome CaptureData :=
  Fetched (mkCaptureData (Some "DECLINED")).

(** A world whose storage holds the given accounts and raises the given
    faults. *)
Definition world (e : Env) (u : gmap string Account)
    (faults : list (option string)) : World :=
  {| config := e; users := u; storageFaults := faults; providerLog := [] |}.

(** Storage with one account for [address]. *)
Definition one (balance : Z) : gmap string Account :=
  <[address := account balance]> ∅.

(** A POST whose body carries every field the handlers read. *)
Definition post (amount : option Z) : Request :=
  mkRequest "POST" None
    (mkBody (Some address) (Some "alpine dawn") (Some "a hiker at dawn")
       (Some "ORDER-1") amount).

Definition get : Request :=
  mkRequest "GET" (Some address) (mkBody None None None None None).

End Sample.

(** ** The endpoints of the back ends *)

(** Every request handler of the two back ends. *)
Inductive Endpoint : Type :=
  | DevGetUser
  | DevDeductCredit
  | DevRefundCredit
  | DevCapture
  | DevGeneratePrompt (textOf : GenerateContentResponse -> option string)
  | DevGenerateBackground
  | CloudGetUser
  | CloudGenerateBackground.

(** The world an endpoint leaves behind. *)
Definition endpointEffect (ep : Endpoint) (req : Request) (w : World)
  : World :=
  match ep with
  | DevGetUser => snd (ServerProxy.handleGetUser req w)
  | DevDeductCredit => snd (ServerProxy.handleDeductCredit req w)
  | DevRefundCredit => snd (ServerProxy.handleRefundCredit req w)
  | DevCapture => snd (ServerProxy.handleCapturePayPalOrder req w)
  | DevGeneratePrompt textOf =>
      snd (ServerProxy.handleGeneratePrompt textOf req w)
  | DevGenerateBackground => snd (ServerProxy.handleGenerateBackground req w)
  | CloudGetUser => snd (CloudFunction.getUser req w)
  | CloudGenerateBackground => snd (CloudFunction.generateBackground req w)
  end.

(** The email an endpoint reads off a request: the query parameter for the
    profile endpoints, the body field for the others. *)
Definition endpointEmail (ep : Endpoint) (req : Request) : option string :=
  match ep with
  | DevGetUser | CloudGetUser => truthy (queryEmail req)
  | _ => truthy (bodyEmail (body req))
  end.

(** The handlers of server-proxy.ts, with the method each one requires. *)
Definition requiredMethod (ep : Endpoint) : option string :=
  match ep with
  | DevGetUser => Some "GET"
  | DevDeductCredit | DevRefundCredit | DevCapture
  | DevGeneratePrompt _ | DevGenerateBackground => Some "POST"
  | CloudGetUser | CloudGenerateBackground => None
  end.

(** The status code of the answer of a handler. *)
Definition statusWith {A} (f : A -> Z) (r : Outcome A * World) : Outcome Z :=
  match fst r with
  | Returned a => Returned (f a)
  | Thrown m => Thrown m
  end.

(** The status an endpoint answers with. *)
Definition endpointStatus (ep : Endpoint) (req : Request) (w : World)
  : Outcome Z :=
  match ep with
  | DevGetUser => statusWith status (ServerProxy.handleGetUser req w)
  | DevDeductCredit => statusWith status (ServerProxy.handleDeductCredit req w)
  | DevRefundCredit => statusWith status (ServerProxy.handleRefundCredit req w)
  | DevCapture =>
      statusWith status (ServerProxy.handleCapturePayPalOrder req w)
  | DevGeneratePrompt textOf =>
      statusWith ServerProxy.promptStatus
        (ServerProxy.handleGeneratePrompt textOf req w)
  | DevGenerateBackground =>
      statusWith status (ServerProxy.handleGenerateBackground req w)
  | CloudGetUser => statusWith status (CloudFunction.getUser req w)
  | CloudGenerateBackground =>
      statusWith status (CloudFunction.generateBackground req w)
  end.

(** A field of the body is present when it is truthy. *)
Definition present (field : option string) : bool :=
  match truthy field with
  | Some _ => true
  | None => false
  end.

(** The fields an endpoint requires besides the email. *)
Definition endpointFields (ep : Endpoint) (req : Request) : bool :=
  match ep with
  | DevCapture => present (bodyOrderID (body req))
  | DevGeneratePrompt _ | CloudGenerateBackground =>
      present (bodyTheme (body req))
  | DevGenerateBackground => present (bodyPrompt (body req))
  | _ => true
  end.

(** ** server.ts: the routes of the development server *)

Module DevServer.

(** [app.get] serves GET and HEAD; [app.post] serves POST. A request that
    matches no route falls through to the page middleware. *)
Definition route (verb path : string) : option (Request -> Async Response) :=
  if String.eqb path "/api/user" then
    if String.eqb verb "GET" || String.eqb verb "HEAD"
    then Some ServerProxy.handleGetUser else None
  else if negb (String.eqb verb "POST") then None
  else if String.eqb path "/api/deduct-credit"
    then Some ServerProxy.handleDeductCredit
  else if String.eqb path "/api/refund-credit"
    then Some ServerProxy.handleRefundCredit
  else if String.eqb path "/api/paypal/capture-order"
    then Some ServerProxy.handleCapturePayPalOrder
  else None.

End DevServer.

(** ** The page-side service that drives the development server *)

(** What [fetch] resolves with: a JSON reply of a handler, or a page that is
    not JSON (no route, or a handler that threw). *)
Inductive HttpReply : Type :=
  | JsonReply (r : Response)
  | PageReply (code : Z).

Definition replyStatus (r : HttpReply) : Z :=
  match r with
  | JsonReply resp => status resp
  | PageReply code => code
  end.

(** [response.ok] *)
Definition replyOk (r : HttpReply) : bool :=
  (200 <=? replyStatus r) && (replyStatus r <=? 299).

(** The [message] field of a JSON body. *)
Definition messageField (j : Json) : option string :=
  match j with
  | JMessage m => Some m
  | _ => None
  end.

(** The [credits] field of a JSON body. *)
Definition creditsField (j : Json) : option Z :=
  match j with
  | JCredits c => Some c
  | JImage _ c => Some c
  | JUser a => Some (credits a)
  | _ => None
  end.

(** The [imageUrl] field of a JSON body. *)
Definition imageUrlField (j : Json) : option string :=
  match j with
  | JImage url _ => Some url
  | _ => None
  end.

(** The browser: the world it talks to, the faults of the network (one entry
    per [fetch], as for storage) and the key built into the page. *)
Record Browser : Type := mkBrowser {
  world : World;
  networkFaults : list (option string);
  pageKey : option string
}.

Definition Page (A : Type) : Type := Browser -> Outcome A * Browser.

Definition pret {A} (a : A) : Page A := fun b => (Returned a, b).

Definition pthrow {A} (message : string) : Page A :=
  fun b => (Thrown message, b).

Definition pbind {A B} (m : Page A) (k : A -> Page B) : Page B :=
  fun b =>
    match m b with
    | (Returned a, b') => k a b'
    | (Thrown msg, b') => (Thrown msg, b')
    end.

Definition pcatch {A} (m : Page A) (handler : string -> Page A) : Page A :=
  fun b =>
    match m b with
    | (Returned a, b') => (Returned a, b')
    | (Thrown msg, b') => handler msg b'
    end.

Notation "'pawait' x <- m ; k" := (pbind m (fun x => k))
  (at level 10, x name, m at level 100, k at level 200).

(** An asynchronous computation of the world, run from the page. *)
Definition inWorld {A} (m : Async A) : Page A :=
  fun b =>
    let '(r, w') := m (world b) in
    (r, {| world := w'; networkFaults := networkFaults b;
           pageKey := pageKey b |}).

(** [fetch] against a router: a network fault rejects before the request
    reaches the server. *)
Definition fetchFrom
    (router : string -> string -> option (Request -> Async Response))
    (verb path : string) (query : option string) (payload : RequestBody)
  : Page HttpReply :=
  fun b =>
    let send (b' : Browser) :=
      match router verb path with
      | Some handler =>
          inWorld
            (tryCatch
               (await r <- handler (mkRequest verb query payload) ;
                ret (JsonReply r))
               (fun _ => ret (PageReply 500))) b'
      | None => (Returned (PageReply 404), b')
      end in
    match networkFaults b with
    | Some msg :: rest =>
        (Thrown msg, {| world := world b; networkFaults := rest;
                        pageKey := pageKey b |})
    | None :: rest =>
        send {| world := world b; networkFaults := rest;
                pageKey := pageKey b |}
    | [] => send b
    end.

(** [await response.json()] *)
Definition replyJson (r : HttpReply) : Page Json :=
  match r with
  | JsonReply resp => pret (json resp)
  | PageReply _ => pthrow "Unexpected token '<'"
  end.

(** The value the generation functions of the client return. *)
Record GenerateResponse : Type := mkGenerateResponse {
  resultImageUrl : option string;
  resultCredits : option Z
}.

Definition noBody : RequestBody := mkBody None None None None None.

Module DevClient.

(** The loop over the parts in the page: a missing MIME type defaults to
    [image/png]. *)
Fixpoint firstInlineData (ps : list Part) : option string :=
  match ps with
  | [] => None
  | part :: rest =>
      match inlineData part with
      | Some d =>
          Some (String.append "data:"
                  (String.append (orElse (mimeType d) "image/png")
                     (String.append ";base64," (data d))))
      | None => firstInlineData rest
      end
  end.

Definition extractImage (response : GenerateContentResponse)
  : option string :=
  match candidates response with
  | Some (candidate :: _) =>
      match content candidate with
      | Some c =>
          match parts c with
          | Some ps => firstInlineData ps
          | None => None
          end
      | None => None
      end
  | _ => None
  end.

(** The [try] block of [generateOutdoorBackground]. *)
Definition generateBody (prompt email : string) : Page GenerateResponse :=
  pawait deductResponse <-
    fetchFrom DevServer.route "POST" "/api/deduct-credit" None
      (mkBody (Some email) None None None (Some 1)) ;
  pawait deducted <-
    (if negb (replyOk deductResponse) then
       pawait errorData <- replyJson deductResponse ;
       pthrow (match messageField errorData with
               | Some m => orElse m "Failed to deduct credit"
               | None => "Failed to deduct credit"
               end)
     else replyJson deductResponse) ;
  let credits := creditsField deducted in
  pawait key <- (fun b => (Returned (truthy (pageKey b)), b)) ;
  match key with
  | None => pthrow "API Key not found"
  | Some _ =>
      pawait response <- inWorld (callProvider "gemini-2.5-flash-image" prompt) ;
      match extractImage response with
      | None => pthrow "No image generated"
      | Some imageUrl =>
          pret {| resultImageUrl := Some imageUrl; resultCredits := credits |}
      end
  end.

(** The refund of the [catch] block, inside its own [try]/[catch]. *)
Definition refund (email : string) : Page unit :=
  pcatch
    (pawait _ <- fetchFrom DevServer.route "POST" "/api/refund-credit" None
                   (mkBody (Some email) None None None (Some 1)) ;
     pret tt)
    (fun _ => pret tt).

Definition generateOutdoorBackground (prompt email : string)
  : Page GenerateResponse :=
  pcatch
    (generateBody prompt email)
    (fun _ =>
       pawait _ <- refund email ;
       pret {| resultImageUrl := None; resultCredits := Some (-1) |}).

End DevClient.

(** ** services/geminiService.ts: the client of the Cloud Function *)

Module CloudClient.

(** The routes of the Express application of index.ts. *)
Definition route (verb path : string) : option (Request -> Async Response) :=
  if String.eqb path "/api/user" then
    if String.eqb verb "GET" || String.eqb verb "HEAD"
    then Some CloudFunction.getUser else None
  else if String.eqb path "/api/generate-background" then
    if String.eqb verb "POST"
    then Some CloudFunction.generateBackground else None
  else None.

Definition generateOutdoorBackground (theme email : string)
  : Page GenerateResponse :=
  pcatch
    (pawait response <-
       fetchFrom route "POST" "/api/generate-background" None
         (mkBody (Some email) (Some theme) None None None) ;
     if negb (replyOk response) then
       pawait errorData <- replyJson response ;
       pthrow (match messageField errorData with
               | Some m => orElse m "Backend generation failed"
               | None => "Backend generation failed"
               end)
     else
       pawait j <- replyJson response ;
       pret {| resultImageUrl := imageUrlField j;
               resultCredits := creditsField j |})
    (fun _ => pret {| resultImageUrl := None; resultCredits := Some (-1) |}).

End CloudClient.

(** ** Ids that storage takes literally

    The embedding identifies a document with the string the handler passes
    to [db.collection('users').doc(email)], and builds the reference without
    effect. That is exact for the ids below, and the statements about an
    email that may have no account are made for them.
    - Firestore's client reads the id as a path relative to the collection:
      a non-empty id without a slash is one segment, [doc] accepts it, and
      two such ids are two documents. For another id [doc] may throw (the
      empty id, ["a/b"]), which [handleDeductCredit], [handleRefundCredit],
      [handleGeneratePrompt], [handleGenerateBackground] and the gateway of
      the Cloud Function do outside their [try], or may name a document
      elsewhere. An id that only the server refuses is rejected at the
      round trip, which is a storage fault.
    - The mock keeps the accounts in a plain object, [mockUsers[id]], and
      finds a value under every name that objects inherit, stored or not;
      an assignment to ["__proto__"] stores nothing and changes what the
      object inherits. For the other ids the object is the finite map of
      what was stored. *)

(** The names a plain JavaScript object inherits from [Object.prototype]. *)
Definition inheritedNames : list string :=
  ["constructor"; "__defineGetter__"; "__defineSetter__"; "hasOwnProperty";
   "__lookupGetter__"; "__lookupSetter__"; "isPrototypeOf";
   "propertyIsEnumerable"; "toString"; "valueOf"; "__proto__";
   "toLocaleString"].

Definition literalId (b : Backend) (id : string) : bool :=
  match b with
  | Firestore => negb (String.eqb id "") && negb (includes "/" id)
  | MockDb => negb (existsb (String.eqb id) inheritedNames)
  end.

(** The emails of the request, in the query and in the body, are literal
    ids. *)
Definition idsLiteral (b : Backend) (req : Request) : bool :=
  match truthy (queryEmail req) with
  | Some e => literalId b e
  | None => true
  end
  && match truthy (bodyEmail (body req)) with
     | Some e => literalId b e
     | None => true
     end.

(** ** Vocabulary of the statements *)

(** The world once the credit of [a] has been taken and the provider has
    been called with [prompt]. *)
Definition charged (e : string) (a : Account) (model prompt : string)
    (w : World) : World :=
  logCall model prompt
    (setUsers (<[e := withCredits (credits a - 1) a]> (users w)) w).

(** The access token is obtained when the credentials are configured and the
    token request is answered with [ok]. *)
Definition tokenGranted (cfg : Env) (token : string) : Prop :=
  (exists i, truthy (PAYPAL_CLIENT_ID cfg) = Some i)
  /\ (exists s, truthy (PAYPAL_CLIENT_SECRET cfg) = Some s)
  /\ exists r, tokenFetch cfg = Fetched r /\ ok r = true
               /\ access_token r = token.

(** The processor confirms the capture of [orderID] with [captureData]. *)
Definition captureConfirmed (cfg : Env) (orderID : string)
    (captureData : CaptureData) : Prop :=
  exists token, tokenGranted cfg token
    /\ captureFetch cfg orderID token = Fetched captureData
    /\ captureStatus captureData = Some "COMPLETED".



(** [m] relates the accounts before and after it by [Q]. *)
Definition respects (Q : gmap string Account -> gmap string Account -> Prop)
    {A} (m : Async A) : Prop :=
  forall w, Q (users w) (users (snd (m w))).

(** The same for the body of a transaction. *)
Definition trespects (Q : gmap string Account -> gmap string Account -> Prop)
    {A} (t : Txn A) : Prop :=
  forall b u, Q u (snd (t b u)).

(** Every account that exists keeps existing, with its [email] and
    [createdAt], and keeps [isPro] once it has it. *)
Definition profilesKept (u u' : gmap string Account) : Prop :=
  forall e a, u !! e = Some a ->
    exists a', u' !! e = Some a'
      /\ email a' = email a /\ createdAt a' = createdAt a
      /\ (isPro a = true -> isPro a' = true).

(** Every account is stored under its own email. *)
Definition keyedByEmail (u : gmap string Account) : Prop :=
  forall e a, u !! e = Some a -> email a = e.

(** What [m] returns, if it returns, satisfies [P]. *)
Definition yields {A} (P : A -> Prop) (m : Async A) : Prop :=
  forall w, match fst (m w) with
            | Returned a => P a
            | Thrown _ => True
            end.

(** [m] does not call the provider. *)
Definition quiet {A} (m : Async A) : Prop :=
  forall w, providerLog (snd (m w)) = providerLog w.

(** [m] calls the provider at most once. *)
Definition sparing {A} (m : Async A) : Prop :=
  forall w, exists calls,
    providerLog (snd (m w)) = (providerLog w ++ calls)%list
    /\ (length calls <= 1)%nat.

(** The endpoints that call the provider at all. *)
Definition generates (ep : Endpoint) : bool :=
  match ep with
  | DevGeneratePrompt _ | DevGenerateBackground | CloudGenerateBackground =>
      true
  | _ => false
  end.

(** What the page computation [m] returns, if it returns, satisfies [P]. *)
Definition pyields {A} (P : A -> Prop) (m : Page A) : Prop :=
  forall b, match fst (m b) with
            | Returned a => P a
            | Thrown _ => True
            end.

(** A result of the client that carries an image, or else the failure
    value: no image and credits -1. *)
Definition imageOrFailure (r : GenerateResponse) : Prop :=
  resultImageUrl r = None -> resultCredits r = Some (-1).



(** * Properties *)

(** ** Basic facts *)

Lemma setUsers_same (w : World) : setUsers (users w) w = w.
Proof. by destruct w. Qed.

Lemma jsOr_zero (c : Z) : jsOr c 0 = c.
Proof. unfold jsOr. destruct (Z.eqb_spec c 0); congruence. Qed.

Ltac unfold_async :=
  unfold bind, ret, throw, tryCatch, respond, getConfig,
    docGet, docSet, docUpdate, runTransaction, storageCall,
    tbind, tret, tthrow, tGet, tUpdate, updateIn, callProvider in *.


Lemma deduct_insufficient (w : World) (e : string) (n : Z) (a : Account) :
  storageFaults w = [] -> users w !! e = Some a -> credits a < n ->
  runTransaction (ServerProxy.deductTransaction e n) w
  = (Thrown "Insufficient credits", w).
Proof.
  intros Hf Hl Hc. unfold ServerProxy.deductTransaction. unfold_async.
  rewrite Hf, Hl. destruct (Z.ltb_spec (credits a) n); [|lia].
  destruct (backend (config w)); [done|]. by rewrite setUsers_same.
Qed.

Lemma deduct_success (w : World) (e : string) (n : Z) (a : Account) :
  storageFaults w = [] -> users w !! e = Some a -> n <= credits a ->
  runTransaction (ServerProxy.deductTransaction e n) w
  = (Returned (credits a - n),
     setUsers (<[e := withCredits (credits a - n) a]> (users w)) w).
Proof.
  intros Hf Hl Hc. unfold ServerProxy.deductTransaction. unfold_async.
  rewrite Hf, Hl. destruct (Z.ltb_spec (credits a) n); [lia|].
  by rewrite Hl.
Qed.

(** The transaction of the Cloud Function is the same reservation, without
    the returned balance. *)
Lemma cloud_deduct_same (e : string) (b : Backend) (u : gmap string Account) :
  CloudFunction.deductTransaction e b u
  = match ServerProxy.deductTransaction e 1 b u with
    | (Returned _, u') => (Returned tt, u')
    | (Thrown m, u') => (Thrown m, u')
    end.
Proof.
  unfold CloudFunction.deductTransaction, ServerProxy.deductTransaction.
  unfold_async. destruct (u !! e) as [a|] eqn:Hl; [|done].
  destruct (credits a <? 1); [done|]. by rewrite Hl.
Qed.



(** The outcome of the refund transaction on fault-free storage. *)
Lemma refund_transaction_success (w : World) (e : string) (n : Z)
    (a : Account) :
  storageFaults w = [] -> users w !! e = Some a ->
  runTransaction (ServerProxy.refundTransaction e n) w
  = (Returned (credits a + n),
     setUsers (<[e := withCredits (credits a + n) a]> (users w)) w).
Proof.
  intros Hf Hl. unfold ServerProxy.refundTransaction. unfold_async.
  by rewrite Hf, !Hl.
Qed.




(** ** Payment capture *)

Lemma token_granted (w : World) (token : string) :
  tokenGranted (config w) token ->
  ServerProxy.generatePayPalAccessToken w = (Returned token, w).
Proof.
  intros ([i Hi] & [s Hs] & r & Hr & Hok & <-).
  unfold ServerProxy.generatePayPalAccessToken. unfold_async.
  by rewrite Hi, Hs, Hr, Hok.
Qed.

(** The steps of the capture handler up to the transaction. *)
Lemma capture_completed_runs_grant (w : World) (req : Request)
    (orderID e : string) (captureData : CaptureData) :
  isMethod req "POST" = true ->
  truthy (bodyOrderID (body req)) = Some orderID ->
  truthy (bodyEmail (body req)) = Some e ->
  captureConfirmed (config w) orderID captureData ->
  ServerProxy.handleCapturePayPalOrder req w
  = tryCatch
      (await _ <- runTransaction (ServerProxy.grantTransaction e) ;
       respond 200 (JCapture true captureData))
      (fun message => respond 500 (JError message)) w.
Proof.
  intros Hm Ho He (token & Ht & Hc & Hs).
  unfold ServerProxy.handleCapturePayPalOrder. rewrite Hm, Ho, He.
  cbv beta iota zeta delta [negb].
  unfold tryCatch at 1 2. unfold bind at 1.
  rewrite (token_granted w token Ht).
  unfold bind at 1. unfold getConfig. rewrite Hc.
  unfold ServerProxy.isCompleted. rewrite Hs. done.
Qed.






(** ** Account bootstrap *)




(** ** The metered gateway *)

Lemma runTransaction_log {A} (t : Txn A) (w : World) :
  providerLog (snd (runTransaction t w)) = providerLog w.
Proof.
  unfold runTransaction, storageCall.
  destruct (storageFaults w) as [|[f|] rest]; simpl; try done;
    destruct (t _ _) as [[x|m] u']; simpl; try done;
    by destruct (backend (config w)).
Qed.

Lemma apiKeyOf_API_KEY (cfg : Env) :
  truthy (API_KEY cfg) <> None -> ServerProxy.apiKeyOf cfg <> None.
Proof.
  unfold ServerProxy.apiKeyOf. by destruct (truthy (GEMINI_API_KEY cfg)).
Qed.

(** Neither rejection of the reservation is taken for a provider failure. *)
Lemma rejection_not_refund_eligible (m : string) :
  m = "Insufficient credits" \/ m = "User not found" ->
  ServerProxy.refundEligible m = false
  /\ CloudFunction.refundEligible m = false
  /\ orElse m "Internal Server Error" = m.
Proof. by intros [-> | ->]. Qed.

(** A message that the refund condition accepts is neither empty nor the
    rejection for insufficient credits. *)
Lemma refund_eligible_status (m : string) :
  ServerProxy.refundEligible m = true \/ CloudFunction.refundEligible m = true ->
  statusOfError m = 500 /\ orElse m "Internal Server Error" = m.
Proof.
  intros H. unfold statusOfError, orElse.
  destruct (String.eqb_spec m "Insufficient credits") as [->|_].
  { by destruct H. }
  destruct (String.eqb_spec m "") as [->|_]; [by destruct H|done].
Qed.

(** C2. In both gateways, when the reservation of the credit is rejected
    with "Insufficient credits" or with "User not found", the handler answers
    with that error (status 403 for the former) right after the transaction:
    the world is the one the transaction left, so the provider has not been
    called and no account has changed. *)
Theorem rejected_reservation_never_calls_provider (w w1 : World)
    (req : Request) (e m : string) :
  m = "Insufficient credits" \/ m = "User not found" ->
  truthy (bodyEmail (body req)) = Some e ->
  (forall prompt,
     isMethod req "POST" = true ->
     truthy (bodyPrompt (body req)) = Some prompt ->
     runTransaction (ServerProxy.deductTransaction e 1) w = (Thrown m, w1) ->
     ServerProxy.handleGenerateBackground req w
     = (Returned {| status := statusOfError m; json := JMessage m |}, w1)
     /\ providerLog w1 = providerLog w)
  /\ (forall theme,
     truthy (bodyTheme (body req)) = Some theme ->
     truthy (API_KEY (config w)) <> None ->
     runTransaction (CloudFunction.deductTransaction e) w = (Thrown m, w1) ->
     CloudFunction.generateBackground req w
     = (Returned {| status := statusOfError m; json := JMessage m |}, w1)
     /\ providerLog w1 = providerLog w).
Proof.
  intros Hm He.
  destruct (rejection_not_refund_eligible m Hm) as (Hs & Hc & Ho).
  split.
  - intros prompt Hp Hq Ht. split.
    + unfold ServerProxy.handleGenerateBackground. rewrite Hp, Hq, He.
      cbv beta iota zeta delta [negb].
      unfold tryCatch, ServerProxy.generateBackgroundBody.
      unfold bind at 1. rewrite Ht. rewrite Hs.
      unfold bind, ret, respond. by rewrite Ho.
    + pose proof (runTransaction_log (ServerProxy.deductTransaction e 1) w)
        as Hlog. by rewrite Ht in Hlog.
  - intros theme Hth Hk Ht. split.
    + unfold CloudFunction.generateBackground. rewrite Hth, He.
      unfold bind at 1. unfold getConfig.
      destruct (truthy (API_KEY (config w))); [|done].
      unfold tryCatch, CloudFunction.generateBackgroundBody.
      unfold bind at 1. rewrite Ht. rewrite Hc.
      unfold bind, ret, respond. by rewrite Ho.
    + pose proof (runTransaction_log (CloudFunction.deductTransaction e) w)
        as Hlog. by rewrite Ht in Hlog.
Qed.

Lemma rejected_reservation_never_calls_provider_witness :
  let w := Sample.world
             (Sample.env Firestore (Resolves Sample.imageResponse)
                Sample.declined)
             (Sample.one 0) [] in
  (ServerProxy.handleGenerateBackground (Sample.post None) w
   = (Returned {| status := 403; json := JMessage "Insufficient credits" |}, w)
   /\ providerLog w = [])
  /\ (CloudFunction.generateBackground (Sample.post None) w
   = (Returned {| status := 403; json := JMessage "Insufficient credits" |}, w)
   /\ providerLog w = []).
Proof.
  intros w.
  destruct (rejected_reservation_never_calls_provider w w (Sample.post None)
              Sample.address "Insufficient credits") as [H1 H2];
    [by left | reflexivity |].
  split.
  - apply (H1 "a hiker at dawn"); reflexivity.
  - apply (H2 "alpine dawn"); [reflexivity | discriminate | reflexivity].
Defined.

Lemma server_body_throws (w : World) (prompt e : string) (a : Account) :
  storageFaults w = [] -> users w !! e = Some a -> 1 <= credits a ->
  ServerProxy.apiKeyOf (config w) <> None ->
  ServerProxy.generateBackgroundBody prompt e w
  = match generateContent (config w) "gemini-2.5-flash-image" prompt with
    | Rejects m =>
        (Thrown m, charged e a "gemini-2.5-flash-image" prompt w)
    | Resolves r =>
        match extractImage r with
        | None => (Thrown "AI returned no image",
                   charged e a "gemini-2.5-flash-image" prompt w)
        | Some imageUrl =>
            (Returned {| status := 200;
                         json := JImage imageUrl (credits a - 1) |},
             charged e a "gemini-2.5-flash-image" prompt w)
        end
    end.
Proof.
  intros Hf Hl Hc Hk. unfold ServerProxy.generateBackgroundBody.
  unfold bind at 1. rewrite (deduct_success w e 1 a Hf Hl Hc).
  unfold bind at 1. unfold getConfig. cbn [config setUsers].
  destruct (ServerProxy.apiKeyOf (config w)) as [k|]; [|done].
  unfold bind at 1. unfold callProvider. cbn [config setUsers].
  destruct (generateContent _ _ _) as [r|m]; [|done].
  destruct (extractImage r) as [url|]; [|done].
  unfold_async. cbn [storageFaults logCall setUsers users]. rewrite Hf.
  cbn [users]. rewrite lookup_insert_eq. cbn [withCredits credits].
  by rewrite jsOr_zero.
Qed.

Lemma cloud_body_throws (w : World) (theme e : string) (a : Account) :
  storageFaults w = [] -> users w !! e = Some a -> 1 <= credits a ->
  CloudFunction.generateBackgroundBody theme e w
  = match generateContent (config w) "gemini-2.5-flash-image"
            (CloudFunction.promptOf theme) with
    | Rejects m =>
        (Thrown m, charged e a "gemini-2.5-flash-image"
                     (CloudFunction.promptOf theme) w)
    | Resolves r =>
        match extractImage r with
        | None => (Thrown "AI returned no image",
                   charged e a "gemini-2.5-flash-image"
                     (CloudFunction.promptOf theme) w)
        | Some imageUrl =>
            (Returned {| status := 200;
                         json := JImage imageUrl (credits a - 1) |},
             charged e a "gemini-2.5-flash-image"
               (CloudFunction.promptOf theme) w)
        end
    end.
Proof.
  intros Hf Hl Hc. unfold CloudFunction.generateBackgroundBody.
  unfold bind at 1. unfold runTransaction, storageCall. rewrite Hf.
  rewrite cloud_deduct_same.
  pose proof (deduct_success w e 1 a Hf Hl Hc) as Ht.
  unfold runTransaction, storageCall in Ht. rewrite Hf in Ht.
  destruct (ServerProxy.deductTransaction e 1 _ _) as [[x|m] u'];
    [|discriminate].
  injection Ht as _ Hu. subst u'.
  unfold bind at 1. unfold callProvider. cbn [config setUsers].
  destruct (generateContent _ _ _) as [r|m]; [|done].
  destruct (extractImage r) as [url|]; [|done].
  unfold_async. cbn [storageFaults logCall setUsers users]. rewrite Hf.
  cbn [users]. rewrite lookup_insert_eq. cbn [withCredits credits].
  by rewrite jsOr_zero.
Qed.

(** C1. In both gateways, on reachable storage, with an account that holds
    at least one credit: when the provider rejects the call with an [Error]
    whose message the refund condition of the [catch] block does not accept,
    the handler answers with that error after one provider call and performs
    no refund, so the account is left with its balance minus 1. *)
Theorem unmatched_provider_error_keeps_the_charge (w : World)
    (req : Request) (prompt theme e m : string) (a : Account) :
  storageFaults w = [] ->
  users w !! e = Some a ->
  1 <= credits a ->
  truthy (API_KEY (config w)) <> None ->
  isMethod req "POST" = true ->
  truthy (bodyPrompt (body req)) = Some prompt ->
  truthy (bodyTheme (body req)) = Some theme ->
  truthy (bodyEmail (body req)) = Some e ->
  (forall model p, generateContent (config w) model p = Rejects m) ->
  ServerProxy.refundEligible m = false ->
  CloudFunction.refundEligible m = false ->
  (exists w1,
     ServerProxy.handleGenerateBackground req w
     = (Returned {| status := statusOfError m;
                    json := JMessage (orElse m "Internal Server Error") |},
        w1)
     /\ credits <$> users w1 !! e = Some (credits a - 1)
     /\ length (providerLog w1) = S (length (providerLog w)))
  /\ (exists w1,
     CloudFunction.generateBackground req w
     = (Returned {| status := statusOfError m;
                    json := JMessage (orElse m "Internal Server Error") |},
        w1)
     /\ credits <$> users w1 !! e = Some (credits a - 1)
     /\ length (providerLog w1) = S (length (providerLog w))).
Proof.
  intros Hf Hl Hc Hk Hm Hp Hth He Hrej Hs Hcl.
  assert (Hafter : forall model p,
    credits <$> users (charged e a model p w) !! e = Some (credits a - 1)
    /\ length (providerLog (charged e a model p w))
       = S (length (providerLog w))).
  { intros model p. unfold charged. cbn [logCall setUsers users providerLog].
    rewrite lookup_insert_eq, length_app. simpl. split; [done|lia]. }
  split.
  - exists (charged e a "gemini-2.5-flash-image" prompt w).
    split; [|apply Hafter].
    unfold ServerProxy.handleGenerateBackground. rewrite Hm, Hp, He.
    cbv beta iota zeta delta [negb]. unfold tryCatch.
    rewrite (server_body_throws w prompt e a Hf Hl Hc
               (apiKeyOf_API_KEY _ Hk)).
    rewrite Hrej, Hs. done.
  - exists (charged e a "gemini-2.5-flash-image"
              (CloudFunction.promptOf theme) w).
    split; [|apply Hafter].
    unfold CloudFunction.generateBackground. rewrite Hth, He.
    unfold bind at 1. unfold getConfig.
    destruct (truthy (API_KEY (config w))); [|done].
    unfold tryCatch.
    rewrite (cloud_body_throws w theme e a Hf Hl Hc).
    rewrite Hrej, Hcl. done.
Qed.

Lemma unmatched_provider_error_keeps_the_charge_witness :
  let w := Sample.world
             (Sample.env Firestore (Rejects "fetch failed") Sample.declined)
             (Sample.one 5) [] in
  (exists w1,
     ServerProxy.handleGenerateBackground (Sample.post None) w
     = (Returned {| status := 500; json := JMessage "fetch failed" |}, w1)
     /\ credits <$> users w1 !! Sample.address = Some 4
     /\ length (providerLog w1) = 1%nat)
  /\ (exists w1,
     CloudFunction.generateBackground (Sample.post None) w
     = (Returned {| status := 500; json := JMessage "fetch failed" |}, w1)
     /\ credits <$> users w1 !! Sample.address = Some 4
     /\ length (providerLog w1) = 1%nat).
Proof.
  intros w.
  apply (unmatched_provider_error_keeps_the_charge w (Sample.post None)
           "a hiker at dawn" "alpine dawn" Sample.address "fetch failed"
           (Sample.account 5));
    [reflexivity | reflexivity | simpl; lia | discriminate | reflexivity
    | reflexivity | reflexivity | reflexivity | reflexivity | reflexivity
    | reflexivity].
Defined.

(** On reachable storage the refund gives back the credit that was taken:
    what remains of the request is the entry in the provider log. *)
Lemma refund_restores (w : World) (e model p : string) (a : Account) :
  storageFaults w = [] -> users w !! e = Some a ->
  ServerProxy.refund e (charged e a model p w) = (Returned tt, logCall model p w)
  /\ CloudFunction.refund e (charged e a model p w)
     = (Returned tt, logCall model p w).
Proof.
  intros Hf Hl.
  assert (Hback : forall c,
    c = credits a ->
    <[e := withCredits c (withCredits (credits a - 1) a)]>
      (<[e := withCredits (credits a - 1) a]> (users w)) = users w).
  { intros c ->. rewrite insert_insert_eq.
    replace (withCredits (credits a) (withCredits (credits a - 1) a))
      with a by (by destruct a).
    by apply insert_id. }
  assert (Hset : forall c x,
    applyPatch {| patchCredits := Some (SetTo c); patchIsPro := None |} x
    = withCredits c x) by done.
  assert (Hinc : forall n x,
    applyPatch {| patchCredits := Some (Increment n); patchIsPro := None |} x
    = withCredits (credits x + n) x) by done.
  assert (Hdone : forall u,
    setUsers (users w) (logCall model p (setUsers u w)) = logCall model p w).
  { intros u. by destruct w. }
  split.
  - unfold ServerProxy.refund, charged. unfold_async.
    cbn [storageFaults logCall setUsers users config]. rewrite Hf.
    cbn [users]. rewrite lookup_insert_eq.
    cbn [storageFaults logCall setUsers users config]. rewrite Hf.
    cbn [users config]. rewrite lookup_insert_eq.
    rewrite Hset, jsOr_zero.
    rewrite (Hback (credits (withCredits (credits a - 1) a) + 1))
      by (cbn [withCredits credits]; lia).
    by rewrite Hdone.
  - unfold CloudFunction.refund, charged. unfold_async.
    cbn [storageFaults logCall setUsers users config]. rewrite Hf.
    cbn [users config]. rewrite lookup_insert_eq.
    rewrite Hinc.
    rewrite (Hback (credits (withCredits (credits a - 1) a) + 1))
      by (cbn [withCredits credits]; lia).
    by rewrite Hdone.
Qed.

(** A provider failure that the refund condition accepts nets to zero: the
    response is the error and the accounts are as before the request. *)
Lemma matched_failure_is_refunded (w : World) (req : Request)
    (prompt theme e m : string) (a : Account) :
  storageFaults w = [] ->
  users w !! e = Some a ->
  1 <= credits a ->
  truthy (API_KEY (config w)) <> None ->
  isMethod req "POST" = true ->
  truthy (bodyPrompt (body req)) = Some prompt ->
  truthy (bodyTheme (body req)) = Some theme ->
  truthy (bodyEmail (body req)) = Some e ->
  (forall model p,
     match generateContent (config w) model p with
     | Rejects m' => m' = m
     | Resolves r => extractImage r = None /\ m = "AI returned no image"
     end) ->
  ServerProxy.refundEligible m = true ->
  CloudFunction.refundEligible m = true ->
  ServerProxy.handleGenerateBackground req w
  = (Returned {| status := 500; json := JMessage m |},
     logCall "gemini-2.5-flash-image" prompt w)
  /\ CloudFunction.generateBackground req w
     = (Returned {| status := 500; json := JMessage m |},
        logCall "gemini-2.5-flash-image" (CloudFunction.promptOf theme) w).
Proof.
  intros Hf Hl Hc Hk Hm Hp Hth He Hfail Hs Hcl.
  destruct (refund_eligible_status m (or_introl Hs)) as [Hst Hor].
  split.
  - unfold ServerProxy.handleGenerateBackground. rewrite Hm, Hp, He.
    cbv beta iota zeta delta [negb]. unfold tryCatch.
    rewrite (server_body_throws w prompt e a Hf Hl Hc
               (apiKeyOf_API_KEY _ Hk)).
    specialize (Hfail "gemini-2.5-flash-image" prompt).
    destruct (refund_restores w e "gemini-2.5-flash-image" prompt a Hf Hl)
      as [Hr _].
    destruct (generateContent _ _ _) as [r|m'].
    + destruct Hfail as [-> ->]. cbn [ServerProxy.refundEligible].
      unfold bind. rewrite Hs, Hr. done.
    + subst m'. unfold bind. rewrite Hs, Hr.
      unfold respond, ret. by rewrite Hst, Hor.
  - unfold CloudFunction.generateBackground. rewrite Hth, He.
    unfold bind at 1. unfold getConfig.
    destruct (truthy (API_KEY (config w))); [|done].
    unfold tryCatch.
    rewrite (cloud_body_throws w theme e a Hf Hl Hc).
    specialize (Hfail "gemini-2.5-flash-image" (CloudFunction.promptOf theme)).
    destruct (refund_restores w e "gemini-2.5-flash-image"
                (CloudFunction.promptOf theme) a Hf Hl) as [_ Hr].
    destruct (generateContent _ _ _) as [r|m'].
    + destruct Hfail as [-> ->]. unfold bind. rewrite Hcl, Hr. done.
    + subst m'. unfold bind. rewrite Hcl, Hr.
      unfold respond, ret. by rewrite Hst, Hor.
Qed.

(** C4. In both gateways, when the [try] block has thrown an error that the
    refund condition accepts and storage rejects the refund, the response is
    still the error of the [try] block, with status 500 and its message; the
    failure of the refund appears nowhere in it, and the accounts stay as
    the failed request left them. In the development server the refund is a
    read followed by a write, and either may be the call that is rejected. *)
Theorem refund_failure_is_swallowed (w w1 : World) (req : Request)
    (e m fault : string) (rest : list (option string)) :
  truthy (bodyEmail (body req)) = Some e ->
  (forall prompt,
     isMethod req "POST" = true ->
     truthy (bodyPrompt (body req)) = Some prompt ->
     ServerProxy.generateBackgroundBody prompt e w = (Thrown m, w1) ->
     ServerProxy.refundEligible m = true ->
     storageFaults w1 = Some fault :: rest
     \/ storageFaults w1 = None :: Some fault :: rest ->
     exists w2,
       ServerProxy.handleGenerateBackground req w
       = (Returned {| status := 500; json := JMessage m |}, w2)
       /\ users w2 = users w1)
  /\ (forall theme,
     truthy (bodyTheme (body req)) = Some theme ->
     truthy (API_KEY (config w)) <> None ->
     CloudFunction.generateBackgroundBody theme e w = (Thrown m, w1) ->
     CloudFunction.refundEligible m = true ->
     storageFaults w1 = Some fault :: rest ->
     exists w2,
       CloudFunction.generateBackground req w
       = (Returned {| status := 500; json := JMessage m |}, w2)
       /\ users w2 = users w1).
Proof.
  intros He. split.
  - intros prompt Hm Hp Hbody Hs Hfault.
    destruct (refund_eligible_status m (or_introl Hs)) as [Hst Hor].
    unfold ServerProxy.handleGenerateBackground. rewrite Hm, Hp, He.
    cbv beta iota zeta delta [negb]. unfold tryCatch at 1.
    rewrite Hbody, Hs. unfold bind at 1.
    unfold ServerProxy.refund. unfold_async.
    destruct Hfault as [Hfault | Hfault]; rewrite Hfault.
    + eexists. split; [by rewrite Hst, Hor|done].
    + cbn [users setFaults storageFaults config].
      destruct (users w1 !! e) as [a|]; cbn [storageFaults setFaults].
      * eexists. split; [by rewrite Hst, Hor|done].
      * eexists. split; [by rewrite Hst, Hor|done].
  - intros theme Hth Hk Hbody Hcl Hfault.
    destruct (refund_eligible_status m (or_intror Hcl)) as [Hst Hor].
    unfold CloudFunction.generateBackground. rewrite Hth, He.
    unfold bind at 1. unfold getConfig.
    destruct (truthy (API_KEY (config w))); [|done].
    unfold tryCatch at 1. rewrite Hbody, Hcl. unfold bind at 1.
    unfold CloudFunction.refund. unfold_async. rewrite Hfault.
    eexists. split; [by rewrite Hst, Hor|done].
Qed.

Lemma refund_failure_is_swallowed_witness :
  let w := Sample.world
             (Sample.env Firestore (Rejects "GoogleGenAI: quota exceeded")
                Sample.declined)
             (Sample.one 5) [None; None; Some "UNAVAILABLE"] in
  exists w2,
    ServerProxy.handleGenerateBackground (Sample.post None) w
    = (Returned {| status := 500;
                   json := JMessage "GoogleGenAI: quota exceeded" |}, w2)
    /\ credits <$> users w2 !! Sample.address = Some 4.
Proof.
  intros w.
  set (w1 := snd (ServerProxy.generateBackgroundBody "a hiker at dawn"
                    Sample.address w)).
  destruct (refund_failure_is_swallowed w w1 (Sample.post None)
              Sample.address "GoogleGenAI: quota exceeded" "UNAVAILABLE" [])
    as [H _]; [reflexivity|].
  destruct (H "a hiker at dawn") as (w2 & Hr & Hu);
    [reflexivity | reflexivity | reflexivity | reflexivity
    | right; reflexivity |].
  exists w2. split; [exact Hr|]. rewrite Hu. reflexivity.
Defined.

(** ** The ledger invariant is kept *)


















(** The answers of [handleDeductCredit] on reachable storage. *)
Lemma deduct_handler_rejects (w : World) (req : Request) (e : string)
    (a : Account) :
  storageFaults w = [] -> reserves e req ->
  users w !! e = Some a -> credits a < 1 ->
  ServerProxy.handleDeductCredit req w
  = (Returned {| status := 403; json := JMessage "Insufficient credits" |}, w).
Proof.
  intros Hf [Hm He] Hl Hc. unfold ServerProxy.handleDeductCredit.
  rewrite Hm, He. cbv beta iota zeta delta [negb tryCatch bind].
  by rewrite (deduct_insufficient w e 1 a Hf Hl Hc).
Qed.

Lemma deduct_handler_accepts (w : World) (req : Request) (e : string)
    (a : Account) :
  storageFaults w = [] -> reserves e req ->
  users w !! e = Some a -> 1 <= credits a ->
  ServerProxy.handleDeductCredit req w
  = (Returned {| status := 200; json := JCredits (credits a - 1) |},
     setUsers (<[e := withCredits (credits a - 1) a]> (users w)) w).
Proof.
  intros Hf [Hm He] Hl Hc. unfold ServerProxy.handleDeductCredit.
  rewrite Hm, He. cbv beta iota zeta delta [negb tryCatch bind].
  by rewrite (deduct_success w e 1 a Hf Hl Hc).
Qed.



(** ** Concurrent reservations on one account *)

(** A task run alone is the handler. *)
Lemma inflight_deduct_alone (req : Request) (w : World) :
  runAlone (InFlight.handleDeductCredit req) w
  = ServerProxy.handleDeductCredit req w.
Proof.
  unfold InFlight.handleDeductCredit, ServerProxy.handleDeductCredit.
  destruct (negb _); [done|]. cbv zeta.
  destruct (truthy _) as [e|]; [|done].
  cbn [runAlone]. unfold tryCatch, bind, respond, ret.
  by destruct (runTransaction _ w) as [[c|m] w'].
Qed.

Lemma inflight_refund_alone (e : string) (w : World) :
  runAlone (InFlight.refund e) w = ServerProxy.refund e w.
Proof.
  unfold InFlight.refund, ServerProxy.refund, tryCatch, bind, ret.
  cbn [runAlone].
  destruct (docGet e w) as [[[a|]|m] w1]; cbn [runAlone]; try done.
  by destruct (docUpdate _ _ w1) as [[[]|m] w2].
Qed.

(** Tasks that read and write in separate calls are not isolated: of two
    refunds in flight for one account, both may read before either writes,
    and one refund is lost. *)
Example unisolated_refunds_lose_an_update :
  let w := Sample.world (Sample.env Firestore (Rejects "down") Sample.declined)
             (Sample.one 3) [] in
  let pool := [InFlight.refund Sample.address;
               InFlight.refund Sample.address] in
  credits <$> users (snd (runPool [0; 0; 1; 1]%nat pool w)) !! Sample.address
  = Some 5
  /\ credits <$> users (snd (runPool [0; 1; 0; 1]%nat pool w))
       !! Sample.address
     = Some 4.
Proof. split; reflexivity. Qed.

Lemma inflight_getUser_alone (req : Request) (w : World) :
  runAlone (InFlight.handleGetUser req) w = ServerProxy.handleGetUser req w.
Proof.
  unfold InFlight.handleGetUser, ServerProxy.handleGetUser.
  destruct (negb _); [done|].
  destruct (truthy _) as [e|]; [|done].
  unfold InFlight.getOrCreateUser, ServerProxy.getOrCreateUser.
  unfold tryCatch, bind, respond, ret, getConfig. cbn [runAlone].
  destruct (docGet e w) as [[[a|]|m] w1]; cbn [runAlone]; try done.
  by destruct (docSet e _ w1) as [[[]|m] w2].
Qed.

(** [getOrCreateUser] reads and writes in separate calls. A profile fetch
    that has read "no account" and then waits, while a second fetch creates
    the account and a capture upgrades it, stores its own new account over
    the upgraded one: the 100 credits and [isPro] are gone. *)
Example interleaved_profile_fetch_overwrites_an_upgrade :
  let w := Sample.world (Sample.env Firestore (Rejects "down") Sample.completed)
             ∅ [] in
  let pool := [InFlight.handleGetUser Sample.get;
               InFlight.handleGetUser Sample.get;
               inOneStep (ServerProxy.handleCapturePayPalOrder
                            (Sample.post None))] in
  let stored schedule :=
    (fun a => (credits a, isPro a))
      <$> users (snd (runPool schedule pool w)) !! Sample.address in
  stored [0; 1; 1; 2]%nat = Some (105, true)
  /\ stored [0; 1; 1; 2; 0]%nat = Some (5, false)
  /\ stored [0; 0; 1; 2]%nat = Some (105, true).
Proof. repeat split; reflexivity. Qed.







Section Reservations.

Variable e : string.
Variable n : nat.
Variable B : Z.
Variable faultless : Prop.






End Reservations.





(** ** Scenarios *)

(** The refund conditions on some messages. The condition of the Cloud
    Function accepts every message that contains the letters AI. *)
Example refund_conditions :
  ServerProxy.refundEligible "AI returned no image" = true
  /\ ServerProxy.refundEligible "[GoogleGenAI Error]: quota" = true
  /\ ServerProxy.refundEligible "fetch failed" = false
  /\ ServerProxy.refundEligible "API Key not found" = false
  /\ CloudFunction.refundEligible "AI returned no image" = true
  /\ CloudFunction.refundEligible "fetch failed" = false
  /\ CloudFunction.refundEligible "UNAVAILABLE" = true
  /\ CloudFunction.refundEligible "Insufficient credits" = false.
Proof. repeat split. Qed.

(** First access creates the account with 5 credits. *)
Example first_fetch_creates_account :
  let w := Sample.world (Sample.env MockDb (Rejects "down") Sample.declined)
             ∅ [] in
  ServerProxy.handleGetUser Sample.get w
  = (Returned {| status := 200;
                 json := JUser (mkAccount Sample.address 5 false
                                  (TimeAt 1700000100)) |},
     setUsers (<[Sample.address := mkAccount Sample.address 5 false
                                     (TimeAt 1700000100)]> ∅) w).
Proof. reflexivity. Qed.

(** A generation that delivers an image costs one credit. *)
Example delivered_image_costs_one_credit :
  let w := Sample.world
             (Sample.env Firestore (Resolves Sample.imageResponse)
                Sample.declined)
             (Sample.one 5) [] in
  fst (ServerProxy.handleGenerateBackground (Sample.post None) w)
  = Returned {| status := 200;
                json := JImage "data:image/png;base64,QUJD" 4 |}
  /\ fst (CloudFunction.generateBackground (Sample.post None) w)
     = Returned {| status := 200;
                   json := JImage "data:image/png;base64,QUJD" 4 |}.
Proof. split; reflexivity. Qed.

(** A response without image is answered with an error and refunded. *)
Example missing_image_is_refunded :
  let w := Sample.world
             (Sample.env Firestore (Resolves Sample.emptyResponse)
                Sample.declined)
             (Sample.one 4) [] in
  ServerProxy.handleGenerateBackground (Sample.post None) w
  = (Returned {| status := 500; json := JMessage "AI returned no image" |},
     logCall "gemini-2.5-flash-image" "a hiker at dawn" w)
  /\ users (snd (CloudFunction.generateBackground (Sample.post None) w))
     = users w.
Proof.
  intros w.
  destruct (matched_failure_is_refunded w (Sample.post None)
              "a hiker at dawn" "alpine dawn" Sample.address
              "AI returned no image" (Sample.account 4)) as [H1 H2];
    [reflexivity | reflexivity | simpl; lia | discriminate | reflexivity
    | reflexivity | reflexivity | reflexivity | | reflexivity | reflexivity |].
  { intros model p. by split. }
  split; [exact H1|]. by rewrite H2.
Qed.

(** With the key missing, the development server has already taken the
    credit when it finds out, and the error is not one it refunds. *)
Example missing_key_keeps_the_charge :
  let cfg := {| backend := Firestore; now := 0;
                API_KEY := None; GEMINI_API_KEY := None;
                PAYPAL_CLIENT_ID := None; PAYPAL_CLIENT_SECRET := None;
                generateContent := fun _ _ => Resolves Sample.imageResponse;
                tokenFetch := FetchFails "down";
                captureFetch := fun _ _ => FetchFails "down" |} in
  let r := ServerProxy.handleGenerateBackground (Sample.post None)
             (Sample.world cfg (Sample.one 5) []) in
  fst r = Returned {| status := 500; json := JMessage "API Key not found" |}
  /\ credits <$> users (snd r) !! Sample.address = Some 4
  /\ providerLog (snd r) = [].
Proof. repeat split. Qed.

(** * Further properties of the back ends *)

(** ** What an endpoint may do to the accounts *)

Section Footprint.

(** A relation between the accounts before and after, closed under the two
    kinds of write the handlers make to the accounts named by [target]: the
    creation of the initial record under a free key, and an update that does
    not clear [isPro] and keeps a balance that was not negative so. *)
Variable Q : gmap string Account -> gmap string Account -> Prop.
Variable target : string -> Prop.

Hypothesis Q_refl : forall u, Q u u.
Hypothesis Q_trans : forall u1 u2 u3, Q u1 u2 -> Q u2 u3 -> Q u1 u3.
Hypothesis Q_create : forall u id t,
  target id -> u !! id = None ->
  Q u (<[id := mkAccount id 5 false (TimeAt t)]> u).
Hypothesis Q_update : forall u id a p,
  target id -> u !! id = Some a ->
  patchIsPro p <> Some false ->
  (0 <= credits a -> 0 <= credits (applyPatch p a)) ->
  Q u (<[id := applyPatch p a]> u).

Lemma rs_ret {A} (a : A) : respects Q (ret a).
Proof. intros w. apply Q_refl. Qed.

Lemma rs_throw {A} (m : string) : respects Q (@throw A m).
Proof. intros w. apply Q_refl. Qed.

Lemma rs_respond (code : Z) (payload : Json) : respects Q (respond code payload).
Proof. intros w. apply Q_refl. Qed.

Lemma rs_getConfig : respects Q getConfig.
Proof. intros w. apply Q_refl. Qed.

Lemma rs_bind {A B} (m : Async A) (k : A -> Async B) :
  respects Q m -> (forall a, respects Q (k a)) -> respects Q (bind m k).
Proof.
  intros Hm Hk w. unfold bind. specialize (Hm w).
  destruct (m w) as [[a|msg] w']; [|done].
  exact (Q_trans _ _ _ Hm (Hk a w')).
Qed.

Lemma rs_tryCatch {A} (m : Async A) (h : string -> Async A) :
  respects Q m -> (forall msg, respects Q (h msg)) -> respects Q (tryCatch m h).
Proof.
  intros Hm Hh w. unfold tryCatch. specialize (Hm w).
  destruct (m w) as [[a|msg] w']; [done|].
  exact (Q_trans _ _ _ Hm (Hh msg w')).
Qed.

Lemma rs_storageCall {A} (op : Async A) :
  respects Q op -> respects Q (storageCall op).
Proof.
  intros Hop w. unfold storageCall.
  destruct (storageFaults w) as [|[f|] rest]; [apply Hop|apply Q_refl|].
  apply (Hop (setFaults rest w)).
Qed.

Lemma rs_callProvider (model prompt : string) :
  respects Q (callProvider model prompt).
Proof.
  intros w. unfold callProvider.
  destruct (generateContent _ _ _); apply Q_refl.
Qed.

Lemma rs_runTransaction {A} (t : Txn A) :
  trespects Q t -> respects Q (runTransaction t).
Proof.
  intros Ht. apply rs_storageCall. intros w.
  specialize (Ht (backend (config w)) (users w)).
  destruct (t _ _) as [[a|msg] u']; [done|].
  destruct (backend (config w)); [apply Q_refl|done].
Qed.

Lemma updateIn_respects (b : Backend) (id : string) (p : Patch)
    (u : gmap string Account) :
  target id ->
  patchIsPro p <> Some false ->
  (forall a, u !! id = Some a -> 0 <= credits a ->
             0 <= credits (applyPatch p a)) ->
  Q u (snd (updateIn b id p u)).
Proof.
  intros Ht Hp Hc. unfold updateIn. destruct (u !! id) as [a|] eqn:Hl.
  - simpl. apply Q_update; try done. by apply Hc.
  - destruct b; apply Q_refl.
Qed.

Lemma ts_deduct (e : string) (n : Z) :
  target e -> trespects Q (ServerProxy.deductTransaction e n).
Proof.
  intros Ht b u. unfold ServerProxy.deductTransaction, tbind, tGet.
  destruct (u !! e) as [a|] eqn:Hl; [|apply Q_refl].
  destruct (Z.ltb_spec (credits a) n); [apply Q_refl|].
  unfold tUpdate, tret.
  pose proof (updateIn_respects b e
    {| patchCredits := Some (SetTo (credits a - n)); patchIsPro := None |} u
    Ht) as Hu.
  destruct (updateIn _ _ _ _) as [[x|msg] u']; simpl in *;
    apply Hu; try done; intros a' _ _; simpl; lia.
Qed.

Lemma ts_cloud_deduct (e : string) :
  target e -> trespects Q (CloudFunction.deductTransaction e).
Proof.
  intros Ht b u. rewrite cloud_deduct_same.
  pose proof (ts_deduct e 1 Ht b u) as H.
  by destruct (ServerProxy.deductTransaction e 1 b u) as [[x|m] u'].
Qed.

Lemma ts_refund (e : string) :
  target e -> trespects Q (ServerProxy.refundTransaction e 1).
Proof.
  intros Ht b u. unfold ServerProxy.refundTransaction, tbind, tGet.
  destruct (u !! e) as [a|] eqn:Hl; [|apply Q_refl].
  unfold tUpdate, tret.
  pose proof (updateIn_respects b e
    {| patchCredits := Some (SetTo (credits a + 1)); patchIsPro := None |} u
    Ht) as Hu.
  destruct (updateIn _ _ _ _) as [[x|msg] u']; simpl in *;
    apply Hu; try done; intros a' Ha' Hc; simpl;
    rewrite Hl in Ha'; injection Ha' as <-; lia.
Qed.

Lemma ts_grant (e : string) :
  target e -> trespects Q (ServerProxy.grantTransaction e).
Proof.
  intros Ht b u. unfold ServerProxy.grantTransaction, tbind, tGet.
  destruct (u !! e) as [a|] eqn:Hl; [|apply Q_refl].
  apply updateIn_respects; try done.
  intros a' Ha' Hc. simpl. rewrite jsOr_zero.
  rewrite Hl in Ha'. injection Ha' as <-. lia.
Qed.

Lemma rs_docGet_then {A} (id : string) (k : option Account -> Async A)
    (w : World) :
  (forall w', users w' = users w ->
     Q (users w') (users (snd (k (users w !! id) w')))) ->
  Q (users w) (users (snd (bind (docGet id) k w))).
Proof.
  intros Hk. unfold bind, docGet, storageCall.
  destruct (storageFaults w) as [|[f|] rest]; simpl.
  - by apply Hk.
  - apply Q_refl.
  - by apply (Hk (setFaults rest w)).
Qed.

Lemma rs_docSet_new (id : string) (stamp : Timestamp) (w : World) :
  target id -> users w !! id = None ->
  Q (users w) (users (snd (docSet id (mkAccount id 5 false stamp) w))).
Proof.
  intros Ht Hl. unfold docSet, storageCall.
  destruct (storageFaults w) as [|[f|] rest]; simpl;
    try apply Q_refl; destruct stamp; by apply Q_create.
Qed.

Lemma rs_docUpdate_read (id : string) (p : Patch) (w : World) :
  target id ->
  patchIsPro p <> Some false ->
  (forall a, users w !! id = Some a -> 0 <= credits a ->
             0 <= credits (applyPatch p a)) ->
  Q (users w) (users (snd (docUpdate id p w))).
Proof.
  intros Ht Hp Hc. unfold docUpdate, storageCall.
  destruct (storageFaults w) as [|[f|] rest]; simpl; try apply Q_refl.
  - pose proof (updateIn_respects (backend (config w)) id p (users w)
                  Ht Hp Hc) as H.
    by destruct (updateIn _ _ _ _).
  - pose proof (updateIn_respects (backend (config w)) id p (users w)
                  Ht Hp Hc) as H.
    by destruct (updateIn _ _ _ _).
Qed.

Lemma rs_dev_getOrCreateUser (e : string) :
  target e -> respects Q (ServerProxy.getOrCreateUser e).
Proof.
  intros Ht w. unfold ServerProxy.getOrCreateUser.
  apply rs_docGet_then. intros w' Hw.
  destruct (users w !! e) as [a|] eqn:Hl; [apply Q_refl|].
  unfold bind at 1. unfold getConfig. unfold bind.
  pose proof (rs_docSet_new e (TimeAt (now (config w'))) w' Ht) as H.
  rewrite Hw in H. specialize (H Hl). rewrite Hw.
  by destruct (docSet _ _ _) as [[x|m] w''].
Qed.

Lemma rs_cloud_getOrCreateUser (e : string) :
  target e -> respects Q (CloudFunction.getOrCreateUser e).
Proof.
  intros Ht w. unfold CloudFunction.getOrCreateUser.
  apply rs_docGet_then. intros w' Hw.
  destruct (users w !! e) as [a|] eqn:Hl; [apply Q_refl|].
  unfold bind.
  pose proof (rs_docSet_new e ServerTimestampSentinel w' Ht) as H.
  rewrite Hw in H. specialize (H Hl). rewrite Hw.
  by destruct (docSet _ _ _) as [[x|m] w''].
Qed.

Lemma rs_token : respects Q ServerProxy.generatePayPalAccessToken.
Proof.
  unfold ServerProxy.generatePayPalAccessToken.
  apply rs_bind; [apply rs_getConfig|]. intros cfg.
  destruct (truthy (PAYPAL_CLIENT_ID cfg)); [|apply rs_throw].
  destruct (truthy (PAYPAL_CLIENT_SECRET cfg)); [|apply rs_throw].
  destruct (tokenFetch cfg) as [r|m]; [|apply rs_throw].
  destruct (ok r); [apply rs_ret|apply rs_throw].
Qed.

Lemma rs_dev_refund (e : string) : target e -> respects Q (ServerProxy.refund e).
Proof.
  intros Ht w. unfold ServerProxy.refund, tryCatch.
  assert (H : Q (users w)
    (users (snd (bind (docGet e)
       (fun doc => match doc with
          | Some userData =>
              docUpdate e
                {| patchCredits := Some (SetTo (jsOr (credits userData) 0 + 1));
                   patchIsPro := None |}
          | None => ret tt
          end) w)))).
  { apply rs_docGet_then. intros w' Hw.
    destruct (users w !! e) as [a|] eqn:Hl; [|apply Q_refl].
    apply rs_docUpdate_read; try done.
    intros a' Ha' Hc. simpl. rewrite jsOr_zero.
    rewrite Hw, Hl in Ha'. injection Ha' as <-. lia. }
  by destruct (bind _ _ w) as [[x|m] w'].
Qed.

Lemma rs_cloud_refund (e : string) :
  target e -> respects Q (CloudFunction.refund e).
Proof.
  intros Ht w. unfold CloudFunction.refund, tryCatch.
  pose proof (rs_docUpdate_read e
    {| patchCredits := Some (Increment 1); patchIsPro := None |} w Ht) as H.
  destruct (docUpdate _ _ w) as [[x|m] w']; apply H; try done;
    intros a _ Hc; simpl; lia.
Qed.

Lemma rs_final_read {A} (e : string) (k : option Account -> Async A) :
  (forall doc, respects Q (k doc)) -> respects Q (bind (docGet e) k).
Proof.
  intros Hk. apply rs_bind; [|done].
  apply rs_storageCall. intros w. apply Q_refl.
Qed.

(** Every endpoint relates the accounts before and after by [Q], provided
    the email of the request is a target. *)
Lemma endpoint_respects (ep : Endpoint) (req : Request) (w : World) :
  (forall e, endpointEmail ep req = Some e -> target e) ->
  Q (users w) (users (endpointEffect ep req w)).
Proof.
  intros Ht. revert w.
  destruct ep; simpl in Ht; simpl endpointEffect.
  - change (respects Q (ServerProxy.handleGetUser req)).
    unfold ServerProxy.handleGetUser.
    destruct (negb _); [apply rs_respond|].
    destruct (truthy _) as [e|]; [|apply rs_respond].
    apply rs_tryCatch; [|intros; apply rs_respond].
    apply rs_bind; [by apply rs_dev_getOrCreateUser, Ht|].
    intros; apply rs_respond.
  - change (respects Q (ServerProxy.handleDeductCredit req)).
    unfold ServerProxy.handleDeductCredit.
    destruct (negb _); [apply rs_respond|]. cbv zeta.
    destruct (truthy _) as [e|]; [|apply rs_respond].
    apply rs_tryCatch; [|intros; apply rs_respond].
    apply rs_bind; [|intros; apply rs_respond].
    by apply rs_runTransaction, ts_deduct, Ht.
  - change (respects Q (ServerProxy.handleRefundCredit req)).
    unfold ServerProxy.handleRefundCredit.
    destruct (negb _); [apply rs_respond|]. cbv zeta.
    destruct (truthy _) as [e|]; [|apply rs_respond].
    apply rs_tryCatch; [|intros; apply rs_respond].
    apply rs_bind; [|intros; apply rs_respond].
    by apply rs_runTransaction, ts_refund, Ht.
  - change (respects Q (ServerProxy.handleCapturePayPalOrder req)).
    unfold ServerProxy.handleCapturePayPalOrder.
    destruct (negb _); [apply rs_respond|].
    apply rs_tryCatch; [|intros; apply rs_respond].
    destruct (truthy (bodyOrderID _)) as [o|]; [|apply rs_respond].
    destruct (truthy (bodyEmail _)) as [e|]; [|apply rs_respond].
    apply rs_bind; [apply rs_token|]. intros token.
    apply rs_bind; [apply rs_getConfig|]. intros cfg.
    destruct (captureFetch cfg o token) as [cd|m]; [|apply rs_throw].
    destruct (ServerProxy.isCompleted cd); [|apply rs_respond].
    apply rs_bind; [|intros; apply rs_respond].
    by apply rs_runTransaction, ts_grant, Ht.
  - change (respects Q (ServerProxy.handleGeneratePrompt textOf req)).
    unfold ServerProxy.handleGeneratePrompt.
    destruct (negb _); [apply rs_ret|].
    destruct (truthy (bodyTheme _)) as [theme|]; [|apply rs_ret].
    destruct (truthy (bodyEmail _)) as [e|]; [|apply rs_ret].
    apply rs_tryCatch; [|intros; apply rs_ret].
    unfold ServerProxy.generatePromptBody.
    apply rs_bind; [by apply rs_runTransaction, ts_deduct, Ht|]. intros _.
    apply rs_bind; [apply rs_getConfig|]. intros cfg.
    destruct (ServerProxy.apiKeyOf cfg); [|apply rs_throw].
    apply rs_bind; [apply rs_callProvider|]. intros response.
    apply rs_final_read. intros [a|]; [apply rs_ret|apply rs_throw].
  - change (respects Q (ServerProxy.handleGenerateBackground req)).
    unfold ServerProxy.handleGenerateBackground.
    destruct (negb _); [apply rs_respond|].
    destruct (truthy (bodyPrompt _)) as [prompt|]; [|apply rs_respond].
    destruct (truthy (bodyEmail _)) as [e|]; [|apply rs_respond].
    apply rs_tryCatch.
    + unfold ServerProxy.generateBackgroundBody.
      apply rs_bind; [by apply rs_runTransaction, ts_deduct, Ht|]. intros _.
      apply rs_bind; [apply rs_getConfig|]. intros cfg.
      destruct (ServerProxy.apiKeyOf cfg); [|apply rs_throw].
      apply rs_bind; [apply rs_callProvider|]. intros response.
      destruct (extractImage response); [|apply rs_throw].
      apply rs_final_read. intros doc. apply rs_respond.
    + intros msg. apply rs_bind; [|intros; apply rs_respond].
      destruct (ServerProxy.refundEligible msg); [|apply rs_ret].
      by apply rs_dev_refund, Ht.
  - change (respects Q (CloudFunction.getUser req)).
    unfold CloudFunction.getUser.
    destruct (truthy _) as [e|]; [|apply rs_respond].
    apply rs_tryCatch; [|intros; apply rs_respond].
    apply rs_bind; [by apply rs_cloud_getOrCreateUser, Ht|].
    intros; apply rs_respond.
  - change (respects Q (CloudFunction.generateBackground req)).
    unfold CloudFunction.generateBackground.
    destruct (truthy (bodyTheme _)) as [theme|]; [|apply rs_respond].
    destruct (truthy (bodyEmail _)) as [e|]; [|apply rs_respond].
    apply rs_bind; [apply rs_getConfig|]. intros cfg.
    destruct (truthy (API_KEY cfg)); [|apply rs_respond].
    apply rs_tryCatch.
    + unfold CloudFunction.generateBackgroundBody.
      apply rs_bind; [by apply rs_runTransaction, ts_cloud_deduct, Ht|].
      intros _.
      apply rs_bind; [apply rs_callProvider|]. intros response.
      destruct (extractImage response); [|apply rs_throw].
      apply rs_final_read. intros doc. apply rs_respond.
    + intros msg. apply rs_bind; [|intros; apply rs_respond].
      destruct (CloudFunction.refundEligible msg); [|apply rs_ret].
      by apply rs_cloud_refund, Ht.
Qed.

End Footprint.

(** X1. A request changes no account but the one its email names: after any
    endpoint, on any request whose emails storage takes literally
    ([idsLiteral]), whatever storage, provider and processor do, the record
    stored under any other email is the one stored before. *)
Theorem endpoints_touch_only_their_account (ep : Endpoint) (req : Request)
    (w : World) (other : string) :
  idsLiteral (backend (config w)) req = true ->
  endpointEmail ep req <> Some other ->
  users (endpointEffect ep req w) !! other = users w !! other.
Proof.
  intros _ Hne.
  apply (endpoint_respects (fun u u' => u' !! other = u !! other)
           (fun id => id <> other)).
  - done.
  - intros u1 u2 u3 H12 H23. by rewrite H23.
  - intros u id t Hid _. by apply lookup_insert_ne.
  - intros u id a p Hid _ _ _. by apply lookup_insert_ne.
  - intros e He ->. by apply Hne.
Qed.

Lemma endpoints_touch_only_their_account_witness :
  let bystander := mkAccount "b@x.com" 2 true (TimeAt 5) in
  let w := Sample.world
             (Sample.env Firestore (Resolves Sample.emptyResponse)
                Sample.completed)
             (<["b@x.com" := bystander]> (Sample.one 3)) [] in
  users (endpointEffect DevCapture (Sample.post None) w) !! "b@x.com"
  = Some bystander.
Proof.
  intros bystander w.
  rewrite (endpoints_touch_only_their_account DevCapture (Sample.post None)
             w "b@x.com"); [reflexivity | reflexivity | discriminate].
Defined.

(** X2. A request that is handled on its own, with no other request moving
    between its calls to storage, deletes no account, changes no [email] or
    [createdAt] and takes no [isPro] away: after any endpoint, on any
    request whose emails storage takes literally ([idsLiteral]) and under
    any faults, every account that existed when the request arrived still
    exists with the same [email] and [createdAt], and is still pro if it
    was. With other requests in flight this fails for the profile
    endpoints: see [interleaved_profile_fetch_overwrites_an_upgrade]. *)
Theorem endpoints_keep_profiles (ep : Endpoint) (req : Request) (w : World) :
  idsLiteral (backend (config w)) req = true ->
  profilesKept (users w) (users (endpointEffect ep req w)).
Proof.
  intros _.
  apply (endpoint_respects profilesKept (fun _ => True)); try done.
  - intros u e a Hl. by exists a.
  - intros u1 u2 u3 H12 H23 e a Hl.
    destruct (H12 e a Hl) as (a2 & Hl2 & He2 & Hc2 & Hp2).
    destruct (H23 e a2 Hl2) as (a3 & Hl3 & He3 & Hc3 & Hp3).
    exists a3. repeat split; [done|congruence|congruence|auto].
  - intros u id t _ Hfree e a Hl. exists a.
    rewrite lookup_insert_ne; [done|]. intros ->. congruence.
  - intros u id a p _ Hl Hp _ e a0 Hl0.
    destruct (decide (id = e)) as [->|Hne].
    + rewrite Hl in Hl0. injection Hl0 as <-.
      exists (applyPatch p a). rewrite lookup_insert_eq.
      repeat split; try done. simpl.
      destruct (patchIsPro p) as [[|]|]; congruence.
    + exists a0. by rewrite lookup_insert_ne.
Qed.

Lemma endpoints_keep_profiles_witness :
  let w := Sample.world
             (Sample.env Firestore (Resolves Sample.emptyResponse)
                Sample.declined)
             (<[Sample.address := mkAccount Sample.address 3 true (TimeAt 5)]>
                ∅) [] in
  profilesKept (users w)
    (users (endpointEffect DevGenerateBackground (Sample.post None) w)).
Proof.
  intros w.
  apply (endpoints_keep_profiles DevGenerateBackground (Sample.post None) w).
  reflexivity.
Defined.

(** X3. Every account stays stored under its own email: if each record's
    [email] field equals its document id before an endpoint runs, the same
    holds afterwards, for any request whose emails storage takes literally
    ([idsLiteral]) and under any faults. *)
Theorem endpoints_keep_email_keys (ep : Endpoint) (req : Request) (w : World) :
  idsLiteral (backend (config w)) req = true ->
  keyedByEmail (users w) ->
  keyedByEmail (users (endpointEffect ep req w)).
Proof.
  intros _.
  apply (endpoint_respects
           (fun u u' => keyedByEmail u -> keyedByEmail u') (fun _ => True));
    try done.
  - intros u1 u2 u3 H12 H23 H. auto.
  - intros u id t _ _ H e a.
    destruct (decide (id = e)) as [->|Hne].
    + rewrite lookup_insert_eq. by intros [= <-].
    + rewrite lookup_insert_ne by done. apply H.
  - intros u id a p _ Hl _ _ H e a0.
    destruct (decide (id = e)) as [->|Hne].
    + rewrite lookup_insert_eq. intros [= <-]. simpl. by apply H.
    + rewrite lookup_insert_ne by done. apply H.
Qed.

Lemma endpoints_keep_email_keys_witness :
  keyedByEmail
    (users (endpointEffect CloudGetUser Sample.get
              (Sample.world
                 (Sample.env Firestore (Rejects "down") Sample.declined)
                 ∅ []))).
Proof.
  apply endpoints_keep_email_keys; [reflexivity|]. intros e a Hl.
  cbn [users Sample.world] in Hl. by rewrite lookup_empty in Hl.
Defined.

(** X4. Every endpoint of both back ends, the gateways and the prompt
    endpoint included, keeps every balance at 0 or more: from accounts
    without negative balance, any request whose emails storage takes
    literally ([idsLiteral]), under any faults, leaves accounts without
    negative balance. *)
Theorem every_endpoint_keeps_credits_non_negative (ep : Endpoint)
    (req : Request) (w : World) :
  idsLiteral (backend (config w)) req = true ->
  nonNegative (users w) ->
  nonNegative (users (endpointEffect ep req w)).
Proof.
  intros _.
  apply (endpoint_respects
           (fun u u' => nonNegative u -> nonNegative u') (fun _ => True));
    try done.
  - intros u1 u2 u3 H12 H23 H. auto.
  - intros u id t _ _ H. apply map_Forall_insert_2; [simpl; lia|done].
  - intros u id a p _ Hl _ Hc H.
    apply map_Forall_insert_2; [|done]. apply Hc. exact (H id a Hl).
Qed.

Lemma every_endpoint_keeps_credits_non_negative_witness :
  nonNegative
    (users (endpointEffect CloudGenerateBackground (Sample.post None)
              (Sample.world
                 (Sample.env Firestore (Resolves Sample.emptyResponse)
                    Sample.declined)
                 (Sample.one 0) [Some "UNAVAILABLE"]))).
Proof.
  apply every_endpoint_keeps_credits_non_negative; [reflexivity|].
  apply map_Forall_insert_2; [simpl; lia|]. apply map_Forall_empty.
Defined.

(** ** Guards and answers *)

(** X5. A handler of server-proxy.ts that receives a request with another
    method than its own (GET for the profile, POST for the others) answers
    405 and does nothing else: storage, fault schedule and provider log are
    untouched. *)
Theorem wrong_method_is_refused (ep : Endpoint) (req : Request) (w : World)
    (m : string) :
  requiredMethod ep = Some m ->
  isMethod req m = false ->
  endpointStatus ep req w = Returned 405 /\ endpointEffect ep req w = w.
Proof.
  intros Hreq Hm.
  destruct ep; simpl in Hreq; try discriminate; injection Hreq as <-;
    unfold endpointStatus, endpointEffect, statusWith,
      ServerProxy.handleGetUser, ServerProxy.handleDeductCredit,
      ServerProxy.handleRefundCredit, ServerProxy.handleCapturePayPalOrder,
      ServerProxy.handleGeneratePrompt, ServerProxy.handleGenerateBackground;
    by rewrite Hm.
Qed.

Lemma wrong_method_is_refused_witness :
  let w := Sample.world (Sample.env Firestore (Rejects "down") Sample.completed)
             (Sample.one 3) [Some "UNAVAILABLE"] in
  endpointStatus DevRefundCredit Sample.get w = Returned 405
  /\ endpointEffect DevRefundCredit Sample.get w = w.
Proof.
  intros w.
  apply (wrong_method_is_refused DevRefundCredit Sample.get w "POST");
    reflexivity.
Defined.

(** X6. A request whose method is accepted but whose email is missing or
    empty, or which lacks another field the endpoint requires (the order id,
    the theme, the prompt), is answered 400 before anything happens: no
    storage call, no provider call, no call to the payment processor. *)
Theorem missing_field_is_refused (ep : Endpoint) (req : Request) (w : World) :
  (forall m, requiredMethod ep = Some m -> isMethod req m = true) ->
  endpointEmail ep req = None \/ endpointFields ep req = false ->
  endpointStatus ep req w = Returned 400 /\ endpointEffect ep req w = w.
Proof.
  intros Hm Hmiss.
  destruct ep; simpl in Hm, Hmiss;
    try (rewrite (Hm _ eq_refl) || idtac);
    unfold endpointStatus, endpointEffect, statusWith,
      ServerProxy.handleGetUser, ServerProxy.handleDeductCredit,
      ServerProxy.handleRefundCredit, ServerProxy.handleCapturePayPalOrder,
      ServerProxy.handleGeneratePrompt, ServerProxy.handleGenerateBackground,
      CloudFunction.getUser, CloudFunction.generateBackground, present in *;
    try rewrite (Hm _ eq_refl); simpl negb; cbv iota zeta;
    unfold tryCatch;
    repeat match goal with
           | |- context [truthy ?f] =>
               destruct (truthy f) eqn:?
           end;
    try done; destruct Hmiss; try done.
Qed.

Lemma missing_field_is_refused_witness :
  let req := mkRequest "POST" None
               (mkBody (Some "") (Some "alpine dawn") None None None) in
  let w := Sample.world (Sample.env Firestore (Rejects "down") Sample.completed)
             (Sample.one 3) [] in
  endpointStatus CloudGenerateBackground req w = Returned 400
  /\ endpointEffect CloudGenerateBackground req w = w.
Proof.
  intros req w.
  apply (missing_field_is_refused CloudGenerateBackground req w);
    [discriminate | by left].
Defined.

Section Answers.

Lemma yields_ret {A} (P : A -> Prop) (a : A) : P a -> yields P (ret a).
Proof. by intros H w. Qed.

Lemma yields_throw {A} (P : A -> Prop) (m : string) : yields P (throw m).
Proof. by intros w. Qed.

Lemma yields_bind {A B} (P : B -> Prop) (m : Async A) (k : A -> Async B) :
  (forall a, yields P (k a)) -> yields P (bind m k).
Proof.
  intros Hk w. unfold bind. destruct (m w) as [[a|msg] w']; [|done].
  apply Hk.
Qed.

End Answers.

(** ** The profile endpoints *)

Lemma docGet_outcome (e : string) (w w1 : World) (o : Outcome (option Account)) :
  docGet e w = (o, w1) ->
  users w1 = users w
  /\ match o with
     | Returned doc => doc = users w !! e
     | Thrown _ => True
     end.
Proof.
  unfold docGet, storageCall.
  destruct (storageFaults w) as [|[f|] rest]; cbn; by intros [= <- <-].
Qed.

Lemma docSet_outcome (e : string) (stamp : Timestamp) (w w1 : World)
    (o : Outcome unit) :
  docSet e (mkAccount e 5 false stamp) w = (o, w1) ->
  match o with
  | Returned _ =>
      exists stored, users w1 !! e = Some stored
        /\ email stored = e /\ credits stored = 5 /\ isPro stored = false
  | Thrown _ => users w1 = users w
  end.
Proof.
  unfold docSet, storageCall.
  destruct (storageFaults w) as [|[f|] rest]; intros [= <- <-];
    try done; eexists; (split; [apply lookup_insert_eq|done]).
Qed.

(** What [getOrCreateUser] returns is what storage then holds; when it
    throws, storage is as before. *)
Lemma getOrCreate_outcome (e : string) (w w' : World) (o : Outcome Account) :
  ServerProxy.getOrCreateUser e w = (o, w')
  \/ CloudFunction.getOrCreateUser e w = (o, w') ->
  match o with
  | Returned a =>
      exists stored, users w' !! e = Some stored
        /\ email a = email stored /\ credits a = credits stored
        /\ isPro a = isPro stored
  | Thrown _ => users w' = users w
  end.
Proof.
  unfold ServerProxy.getOrCreateUser, CloudFunction.getOrCreateUser.
  unfold bind, getConfig, ret.
  destruct (docGet e w) as [[doc|m] w1] eqn:Hd;
    destruct (docGet_outcome _ _ _ _ Hd) as [Hw1 Hdoc].
  - subst doc. destruct (users w !! e) as [a|] eqn:Hl.
    + intros [[= <- <-] | [= <- <-]]; exists a; by rewrite Hw1.
    + intros [Hrun | Hrun].
      * destruct (docSet e _ w1) as [[x|m] w2] eqn:Hs;
          pose proof (docSet_outcome _ _ _ _ _ Hs) as Hset;
          injection Hrun as <- <-.
        -- destruct Hset as (stored & Hl' & H1 & H2 & H3).
           exists stored. by cbn.
        -- by rewrite Hset.
      * destruct (docSet e _ w1) as [[x|m] w2] eqn:Hs;
          pose proof (docSet_outcome _ _ _ _ _ Hs) as Hset;
          injection Hrun as <- <-.
        -- destruct Hset as (stored & Hl' & H1 & H2 & H3).
           exists stored. by cbn.
        -- by rewrite Hset.
  - by intros [[= <- <-] | [= <- <-]].
Qed.

(** X8. The profile endpoints ([handleGetUser], and [/api/user] of the
    Cloud Function), for a request with an email that storage takes
    literally ([literalId]), under any storage faults:
    either the answer is 200 and carries the balance and the [isPro] flag
    that storage now holds under that email, or it is 500 with the fixed
    text "Failed to fetch user profile" (never the storage error) and no
    account has been created or changed. *)
Theorem profile_fetch_mirrors_storage_or_fails_closed (req : Request)
    (w : World) (e : string) :
  truthy (queryEmail req) = Some e ->
  literalId (backend (config w)) e = true ->
  let good (r : Outcome Response * World) :=
    (exists a stored,
        fst r = Returned {| status := 200; json := JUser a |}
        /\ users (snd r) !! e = Some stored
        /\ email a = email stored /\ credits a = credits stored
        /\ isPro a = isPro stored)
    \/ (fst r = Returned {| status := 500;
                            json := JMessage "Failed to fetch user profile" |}
        /\ users (snd r) = users w) in
  (isMethod req "GET" = true -> good (ServerProxy.handleGetUser req w))
  /\ good (CloudFunction.getUser req w).
Proof.
  intros He _ good. subst good. cbv beta.
  assert (Hdev : isMethod req "GET" = true ->
    ServerProxy.handleGetUser req w
    = match ServerProxy.getOrCreateUser e w with
      | (Returned a, w') =>
          (Returned {| status := 200; json := JUser a |}, w')
      | (Thrown _, w') =>
          (Returned {| status := 500;
                       json := JMessage "Failed to fetch user profile" |}, w')
      end).
  { intros Hm. unfold ServerProxy.handleGetUser. rewrite Hm, He.
    unfold tryCatch, bind, respond, ret. cbv beta iota delta [negb].
    by destruct (ServerProxy.getOrCreateUser e w) as [[a|m] w1]. }
  assert (Hcloud :
    CloudFunction.getUser req w
    = match CloudFunction.getOrCreateUser e w with
      | (Returned a, w') =>
          (Returned {| status := 200; json := JUser a |}, w')
      | (Thrown _, w') =>
          (Returned {| status := 500;
                       json := JMessage "Failed to fetch user profile" |}, w')
      end).
  { unfold CloudFunction.getUser. rewrite He.
    unfold tryCatch, bind, respond, ret.
    by destruct (CloudFunction.getOrCreateUser e w) as [[a|m] w1]. }
  split.
  - intros Hm. rewrite (Hdev Hm).
    destruct (ServerProxy.getOrCreateUser e w) as [[a|m] w1] eqn:Hrun;
      pose proof (getOrCreate_outcome e w w1 _ (or_introl Hrun)) as Hout;
      cbn [fst snd].
    + left. destruct Hout as (stored & Hl & H). by exists a, stored.
    + by right.
  - rewrite Hcloud.
    destruct (CloudFunction.getOrCreateUser e w) as [[a|m] w1] eqn:Hrun;
      pose proof (getOrCreate_outcome e w w1 _ (or_intror Hrun)) as Hout;
      cbn [fst snd].
    + left. destruct Hout as (stored & Hl & H). by exists a, stored.
    + by right.
Qed.

Lemma profile_fetch_mirrors_storage_or_fails_closed_witness :
  let w := Sample.world (Sample.env Firestore (Rejects "down") Sample.declined)
             ∅ [None; Some "DEADLINE_EXCEEDED"] in
  fst (ServerProxy.handleGetUser Sample.get w)
  = Returned {| status := 500;
                json := JMessage "Failed to fetch user profile" |}
  /\ users (snd (ServerProxy.handleGetUser Sample.get w)) = users w.
Proof.
  intros w.
  destruct (profile_fetch_mirrors_storage_or_fails_closed Sample.get w
              Sample.address eq_refl eq_refl) as [H _].
  destruct (H eq_refl) as [(a & stored & Hr & _) | Hfail];
    [discriminate Hr | exact Hfail].
Defined.

(** ** Payment capture, continued *)

(** One capture on reachable storage, for an account that exists. *)
Lemma capture_grant_step (w : World) (req : Request) (orderID e : string)
    (captureData : CaptureData) (a : Account) :
  storageFaults w = [] ->
  isMethod req "POST" = true ->
  truthy (bodyOrderID (body req)) = Some orderID ->
  truthy (bodyEmail (body req)) = Some e ->
  captureConfirmed (config w) orderID captureData ->
  users w !! e = Some a ->
  ServerProxy.handleCapturePayPalOrder req w
  = (Returned {| status := 200; json := JCapture true captureData |},
     setUsers
       (<[e := mkAccount (email a) (credits a + 100) true (createdAt a)]>
          (users w)) w).
Proof.
  intros Hf Hm Ho He Hc Hl.
  rewrite (capture_completed_runs_grant w req orderID e captureData
             Hm Ho He Hc).
  unfold ServerProxy.grantTransaction. unfold_async.
  rewrite Hf, !Hl, jsOr_zero. done.
Qed.

(** X9. The capture handler keeps no record of the orders it has granted:
    when the processor reports the same order as COMPLETED again, a second
    capture request grants another 100 credits, so two requests for one
    order raise the balance by 200. *)
Theorem capture_replay_grants_again (w : World) (req : Request)
    (orderID e : string) (captureData : CaptureData) (a : Account) :
  storageFaults w = [] ->
  isMethod req "POST" = true ->
  truthy (bodyOrderID (body req)) = Some orderID ->
  truthy (bodyEmail (body req)) = Some e ->
  captureConfirmed (config w) orderID captureData ->
  users w !! e = Some a ->
  exists w1 w2,
    ServerProxy.handleCapturePayPalOrder req w
    = (Returned {| status := 200; json := JCapture true captureData |}, w1)
    /\ ServerProxy.handleCapturePayPalOrder req w1
       = (Returned {| status := 200; json := JCapture true captureData |}, w2)
    /\ users w2 !! e
       = Some (mkAccount (email a) (credits a + 200) true (createdAt a)).
Proof.
  intros Hf Hm Ho He Hc Hl.
  eexists _, _. split; [by apply (capture_grant_step w req orderID e)|].
  split.
  - apply (capture_grant_step _ req orderID e captureData
             (mkAccount (email a) (credits a + 100) true (createdAt a)));
      try done.
    simpl. apply lookup_insert_eq.
  - cbn [users setUsers email credits createdAt].
    rewrite lookup_insert_eq. f_equal. f_equal. lia.
Qed.

Lemma capture_replay_grants_again_witness :
  let w := Sample.world (Sample.env Firestore (Rejects "down") Sample.completed)
             (Sample.one 3) [] in
  exists w1 w2,
    ServerProxy.handleCapturePayPalOrder (Sample.post None) w
    = (Returned {| status := 200;
                   json := JCapture true (mkCaptureData (Some "COMPLETED")) |},
       w1)
    /\ ServerProxy.handleCapturePayPalOrder (Sample.post None) w1
       = (Returned {| status := 200;
                      json := JCapture true
                                (mkCaptureData (Some "COMPLETED")) |}, w2)
    /\ users w2 !! Sample.address
       = Some (mkAccount Sample.address 203 true (TimeAt 1700000000)).
Proof.
  intros w.
  apply (capture_replay_grants_again w (Sample.post None) "ORDER-1"
           Sample.address (mkCaptureData (Some "COMPLETED"))
           (Sample.account 3));
    [reflexivity | reflexivity | reflexivity | reflexivity | | reflexivity].
  exists "token". split; [|split; reflexivity].
  split; [by exists "client"|]. split; [by exists "secret"|].
  by exists (mkTokenResponse true "" "token").
Defined.

(** X10. Without both PayPal credentials in the environment, or when the
    token request is answered without [ok], a capture request is answered
    500 with the error of the token step ("PayPal credentials are not
    configured.", or "Failed to generate Access Token: " followed by the
    processor's text); the capture itself is never attempted and storage is
    not touched. *)
Theorem capture_needs_access_token (w : World) (req : Request)
    (orderID e : string) :
  isMethod req "POST" = true ->
  truthy (bodyOrderID (body req)) = Some orderID ->
  truthy (bodyEmail (body req)) = Some e ->
  (truthy (PAYPAL_CLIENT_ID (config w)) = None
   \/ truthy (PAYPAL_CLIENT_SECRET (config w)) = None ->
   ServerProxy.handleCapturePayPalOrder req w
   = (Returned {| status := 500;
                  json := JError "PayPal credentials are not configured." |},
      w))
  /\ (forall i s r,
        truthy (PAYPAL_CLIENT_ID (config w)) = Some i ->
        truthy (PAYPAL_CLIENT_SECRET (config w)) = Some s ->
        tokenFetch (config w) = Fetched r -> ok r = false ->
        ServerProxy.handleCapturePayPalOrder req w
        = (Returned {| status := 500;
                       json := JError
                                 (String.append
                                    "Failed to generate Access Token: "
                                    (errorText r)) |}, w)).
Proof.
  intros Hm Ho He. split.
  - intros Hmiss. unfold ServerProxy.handleCapturePayPalOrder.
    rewrite Hm, Ho, He. cbv beta iota delta [negb].
    unfold ServerProxy.generatePayPalAccessToken. unfold_async.
    destruct Hmiss as [-> | Hs]; [done|].
    rewrite Hs. by destruct (truthy (PAYPAL_CLIENT_ID (config w))).
  - intros i s r Hi Hs Hr Hok. unfold ServerProxy.handleCapturePayPalOrder.
    rewrite Hm, Ho, He. cbv beta iota delta [negb].
    unfold ServerProxy.generatePayPalAccessToken. unfold_async.
    by rewrite Hi, Hs, Hr, Hok.
Qed.

Lemma capture_needs_access_token_witness :
  let cfg := {| backend := Firestore; now := 0;
                API_KEY := None; GEMINI_API_KEY := None;
                PAYPAL_CLIENT_ID := Some "client";
                PAYPAL_CLIENT_SECRET := Some "";
                generateContent := fun _ _ => Rejects "down";
                tokenFetch := Fetched (mkTokenResponse true "" "token");
                captureFetch := fun _ _ => Sample.completed |} in
  let w := Sample.world cfg (Sample.one 3) [] in
  ServerProxy.handleCapturePayPalOrder (Sample.post None) w
  = (Returned {| status := 500;
                 json := JError "PayPal credentials are not configured." |},
     w).
Proof.
  intros cfg w.
  destruct (capture_needs_access_token w (Sample.post None) "ORDER-1"
              Sample.address) as [H _];
    [reflexivity | reflexivity | reflexivity |].
  apply H. by right.
Defined.

(** ** Deduction and refund *)

(** X11. On reachable storage a successful [handleDeductCredit] followed by
    [handleRefundCredit] for the same email is a round trip: the refund
    answers with the balance the account had before the deduction, and the
    world after the two requests is exactly the world before them. *)
Theorem deduct_then_refund_restores (w : World) (req : Request) (e : string)
    (a : Account) :
  storageFaults w = [] ->
  reserves e req ->
  users w !! e = Some a ->
  1 <= credits a ->
  exists w1,
    ServerProxy.handleDeductCredit req w
    = (Returned {| status := 200; json := JCredits (credits a - 1) |}, w1)
    /\ ServerProxy.handleRefundCredit req w1
       = (Returned {| status := 200; json := JCredits (credits a) |}, w).
Proof.
  intros Hf Hr Hl Hc. eexists. split.
  - by apply (deduct_handler_accepts w req e a).
  - destruct Hr as [Hm He]. unfold ServerProxy.handleRefundCredit.
    rewrite Hm, He. cbv beta iota zeta delta [negb tryCatch bind].
    rewrite (refund_transaction_success _ e 1 (withCredits (credits a - 1) a));
      [|done|apply lookup_insert_eq].
    cbn [users setUsers withCredits credits email isPro createdAt].
    rewrite insert_insert_eq.
    replace (credits a - 1 + 1) with (credits a) by lia.
    replace (withCredits (credits a) (withCredits (credits a - 1) a))
      with a by (by destruct a).
    rewrite (insert_id _ _ _ Hl). unfold respond, ret.
    by destruct w.
Qed.

Lemma deduct_then_refund_restores_witness :
  let w := Sample.world (Sample.env MockDb (Rejects "down") Sample.declined)
             (Sample.one 1) [] in
  exists w1,
    ServerProxy.handleDeductCredit (Sample.post None) w
    = (Returned {| status := 200; json := JCredits 0 |}, w1)
    /\ ServerProxy.handleRefundCredit (Sample.post None) w1
       = (Returned {| status := 200; json := JCredits 1 |}, w).
Proof.
  intros w.
  apply (deduct_then_refund_restores w (Sample.post None) Sample.address
           (Sample.account 1));
    [reflexivity | split; reflexivity | reflexivity | simpl; lia].
Defined.

(** ** Calls to the provider *)

Section ProviderCalls.

Lemma quiet_ret {A} (a : A) : quiet (ret a).
Proof. by intros w. Qed.

Lemma quiet_throw {A} (m : string) : quiet (@throw A m).
Proof. by intros w. Qed.

Lemma quiet_respond (code : Z) (payload : Json) : quiet (respond code payload).
Proof. by intros w. Qed.

Lemma quiet_getConfig : quiet getConfig.
Proof. by intros w. Qed.

Lemma quiet_bind {A B} (m : Async A) (k : A -> Async B) :
  quiet m -> (forall a, quiet (k a)) -> quiet (bind m k).
Proof.
  intros Hm Hk w. unfold bind. specialize (Hm w).
  destruct (m w) as [[a|msg] w']; [|done].
  rewrite <- Hm. apply Hk.
Qed.

Lemma quiet_tryCatch {A} (m : Async A) (h : string -> Async A) :
  quiet m -> (forall msg, quiet (h msg)) -> quiet (tryCatch m h).
Proof.
  intros Hm Hh w. unfold tryCatch. specialize (Hm w).
  destruct (m w) as [[a|msg] w']; [done|].
  rewrite <- Hm. apply Hh.
Qed.

Lemma quiet_storageCall {A} (op : Async A) : quiet op -> quiet (storageCall op).
Proof.
  intros Hop w. unfold storageCall.
  destruct (storageFaults w) as [|[f|] rest]; [apply Hop|done|].
  apply (Hop (setFaults rest w)).
Qed.

Lemma quiet_docGet (id : string) : quiet (docGet id).
Proof. apply quiet_storageCall. by intros w. Qed.

Lemma quiet_docSet (id : string) (a : Account) : quiet (docSet id a).
Proof. apply quiet_storageCall. by intros w. Qed.

Lemma quiet_docUpdate (id : string) (p : Patch) : quiet (docUpdate id p).
Proof.
  apply quiet_storageCall. intros w. by destruct (updateIn _ _ _ _).
Qed.

Lemma quiet_runTransaction {A} (t : Txn A) : quiet (runTransaction t).
Proof. intros w. apply runTransaction_log. Qed.

Lemma quiet_dev_getOrCreateUser (e : string) :
  quiet (ServerProxy.getOrCreateUser e).
Proof.
  unfold ServerProxy.getOrCreateUser.
  apply quiet_bind; [apply quiet_docGet|]. intros [a|]; [apply quiet_ret|].
  apply quiet_bind; [apply quiet_getConfig|]. intros cfg.
  apply quiet_bind; [apply quiet_docSet|]. intros _. apply quiet_ret.
Qed.

Lemma quiet_cloud_getOrCreateUser (e : string) :
  quiet (CloudFunction.getOrCreateUser e).
Proof.
  unfold CloudFunction.getOrCreateUser.
  apply quiet_bind; [apply quiet_docGet|]. intros [a|]; [apply quiet_ret|].
  apply quiet_bind; [apply quiet_docSet|]. intros _. apply quiet_ret.
Qed.

Lemma quiet_token : quiet ServerProxy.generatePayPalAccessToken.
Proof.
  unfold ServerProxy.generatePayPalAccessToken.
  apply quiet_bind; [apply quiet_getConfig|]. intros cfg.
  destruct (truthy (PAYPAL_CLIENT_ID cfg)); [|apply quiet_throw].
  destruct (truthy (PAYPAL_CLIENT_SECRET cfg)); [|apply quiet_throw].
  destruct (tokenFetch cfg) as [r|m]; [|apply quiet_throw].
  destruct (ok r); [apply quiet_ret|apply quiet_throw].
Qed.

Lemma quiet_dev_refund (e : string) : quiet (ServerProxy.refund e).
Proof.
  unfold ServerProxy.refund.
  apply quiet_tryCatch; [|intros; apply quiet_ret].
  apply quiet_bind; [apply quiet_docGet|].
  intros [a|]; [apply quiet_docUpdate|apply quiet_ret].
Qed.

Lemma quiet_cloud_refund (e : string) : quiet (CloudFunction.refund e).
Proof.
  unfold CloudFunction.refund.
  apply quiet_tryCatch; [apply quiet_docUpdate|intros; apply quiet_ret].
Qed.

Lemma quiet_handleGetUser (req : Request) : quiet (ServerProxy.handleGetUser req).
Proof.
  unfold ServerProxy.handleGetUser.
  destruct (negb _); [apply quiet_respond|].
  destruct (truthy _) as [e|]; [|apply quiet_respond].
  apply quiet_tryCatch; [|intros; apply quiet_respond].
  apply quiet_bind; [apply quiet_dev_getOrCreateUser|].
  intros; apply quiet_respond.
Qed.

Lemma quiet_handleDeductCredit (req : Request) :
  quiet (ServerProxy.handleDeductCredit req).
Proof.
  unfold ServerProxy.handleDeductCredit.
  destruct (negb _); [apply quiet_respond|]. cbv zeta.
  destruct (truthy _) as [e|]; [|apply quiet_respond].
  apply quiet_tryCatch; [|intros; apply quiet_respond].
  apply quiet_bind; [apply quiet_runTransaction|intros; apply quiet_respond].
Qed.

Lemma quiet_handleRefundCredit (req : Request) :
  quiet (ServerProxy.handleRefundCredit req).
Proof.
  unfold ServerProxy.handleRefundCredit.
  destruct (negb _); [apply quiet_respond|]. cbv zeta.
  destruct (truthy _) as [e|]; [|apply quiet_respond].
  apply quiet_tryCatch; [|intros; apply quiet_respond].
  apply quiet_bind; [apply quiet_runTransaction|intros; apply quiet_respond].
Qed.

Lemma quiet_handleCapture (req : Request) :
  quiet (ServerProxy.handleCapturePayPalOrder req).
Proof.
  unfold ServerProxy.handleCapturePayPalOrder.
  destruct (negb _); [apply quiet_respond|].
  apply quiet_tryCatch; [|intros; apply quiet_respond].
  destruct (truthy (bodyOrderID _)) as [o|]; [|apply quiet_respond].
  destruct (truthy (bodyEmail _)) as [e|]; [|apply quiet_respond].
  apply quiet_bind; [apply quiet_token|]. intros token.
  apply quiet_bind; [apply quiet_getConfig|]. intros cfg.
  destruct (captureFetch cfg o token) as [cd|m]; [|apply quiet_throw].
  destruct (ServerProxy.isCompleted cd); [|apply quiet_respond].
  apply quiet_bind; [apply quiet_runTransaction|intros; apply quiet_respond].
Qed.

Lemma sparing_of_quiet {A} (m : Async A) : quiet m -> sparing m.
Proof.
  intros Hm w. exists []. rewrite Hm, app_nil_r. split; [done|simpl; lia].
Qed.

Lemma sparing_callProvider (model prompt : string) :
  sparing (callProvider model prompt).
Proof.
  intros w. exists [(model, prompt)]. unfold callProvider.
  by destruct (generateContent _ _ _).
Qed.

Lemma sparing_bind_l {A B} (m : Async A) (k : A -> Async B) :
  quiet m -> (forall a, sparing (k a)) -> sparing (bind m k).
Proof.
  intros Hm Hk w. unfold bind. specialize (Hm w).
  destruct (m w) as [[a|msg] w'].
  - rewrite <- Hm. apply Hk.
  - exists []. simpl in *. rewrite Hm, app_nil_r. split; [done|simpl; lia].
Qed.

Lemma sparing_bind_r {A B} (m : Async A) (k : A -> Async B) :
  sparing m -> (forall a, quiet (k a)) -> sparing (bind m k).
Proof.
  intros Hm Hk w. unfold bind. destruct (Hm w) as (calls & Hc & Hlen).
  destruct (m w) as [[a|msg] w']; [|by exists calls].
  exists calls. by rewrite Hk.
Qed.

Lemma sparing_tryCatch_r {A} (m : Async A) (h : string -> Async A) :
  sparing m -> (forall msg, quiet (h msg)) -> sparing (tryCatch m h).
Proof.
  intros Hm Hh w. unfold tryCatch. destruct (Hm w) as (calls & Hc & Hlen).
  destruct (m w) as [[a|msg] w']; [by exists calls|].
  exists calls. by rewrite Hh.
Qed.

End ProviderCalls.

(** X12. One request costs at most one provider call: after any endpoint,
    on any request and under any faults, the provider log is the log before
    followed by at most one call; the endpoints that do not generate (the
    profile, deduction, refund and capture handlers) add none. The gateways
    never retry the provider. *)
Theorem at_most_one_provider_call (ep : Endpoint) (req : Request) (w : World) :
  exists calls,
    providerLog (endpointEffect ep req w) = (providerLog w ++ calls)%list
    /\ (length calls <= 1)%nat
    /\ (generates ep = false -> calls = []).
Proof.
  assert (Hq : forall A (m : Async A), quiet m ->
    exists calls, providerLog (snd (m w)) = (providerLog w ++ calls)%list
      /\ (length calls <= 1)%nat /\ calls = []).
  { intros A m Hm. exists []. rewrite Hm, app_nil_r.
    repeat split. simpl; lia. }
  assert (Hs : forall A (m : Async A), sparing m ->
    exists calls, providerLog (snd (m w)) = (providerLog w ++ calls)%list
      /\ (length calls <= 1)%nat /\ (true = false -> calls = [])).
  { intros A m Hm. destruct (Hm w) as (calls & Hc & Hlen).
    exists calls. repeat split; try done. }
  destruct ep; simpl endpointEffect; simpl generates.
  - destruct (Hq _ _ (quiet_handleGetUser req)) as (c & H1 & H2 & H3).
    by exists c.
  - destruct (Hq _ _ (quiet_handleDeductCredit req)) as (c & H1 & H2 & H3).
    by exists c.
  - destruct (Hq _ _ (quiet_handleRefundCredit req)) as (c & H1 & H2 & H3).
    by exists c.
  - destruct (Hq _ _ (quiet_handleCapture req)) as (c & H1 & H2 & H3).
    by exists c.
  - apply Hs. unfold ServerProxy.handleGeneratePrompt.
    destruct (negb _); [apply sparing_of_quiet, quiet_ret|].
    destruct (truthy (bodyTheme _)); [|apply sparing_of_quiet, quiet_ret].
    destruct (truthy (bodyEmail _)); [|apply sparing_of_quiet, quiet_ret].
    apply sparing_tryCatch_r; [|intros; apply quiet_ret].
    unfold ServerProxy.generatePromptBody.
    apply sparing_bind_l; [apply quiet_runTransaction|]. intros _.
    apply sparing_bind_l; [apply quiet_getConfig|]. intros cfg.
    destruct (ServerProxy.apiKeyOf cfg);
      [|apply sparing_of_quiet, quiet_throw].
    apply sparing_bind_r; [apply sparing_callProvider|]. intros response.
    apply quiet_bind; [apply quiet_docGet|].
    intros [a|]; [apply quiet_ret|apply quiet_throw].
  - apply Hs. unfold ServerProxy.handleGenerateBackground.
    destruct (negb _); [apply sparing_of_quiet, quiet_respond|].
    destruct (truthy (bodyPrompt _));
      [|apply sparing_of_quiet, quiet_respond].
    destruct (truthy (bodyEmail _)); [|apply sparing_of_quiet, quiet_respond].
    apply sparing_tryCatch_r.
    + unfold ServerProxy.generateBackgroundBody.
      apply sparing_bind_l; [apply quiet_runTransaction|]. intros _.
      apply sparing_bind_l; [apply quiet_getConfig|]. intros cfg.
      destruct (ServerProxy.apiKeyOf cfg);
        [|apply sparing_of_quiet, quiet_throw].
      apply sparing_bind_r; [apply sparing_callProvider|]. intros response.
      destruct (extractImage response); [|apply quiet_throw].
      apply quiet_bind; [apply quiet_docGet|]. intros; apply quiet_respond.
    + intros msg. apply quiet_bind; [|intros; apply quiet_respond].
      destruct (ServerProxy.refundEligible msg);
        [apply quiet_dev_refund|apply quiet_ret].
  - assert (Hg : quiet (CloudFunction.getUser req)).
    { unfold CloudFunction.getUser.
      destruct (truthy _) as [e|]; [|apply quiet_respond].
      apply quiet_tryCatch; [|intros; apply quiet_respond].
      apply quiet_bind; [apply quiet_cloud_getOrCreateUser|].
      intros; apply quiet_respond. }
    destruct (Hq _ _ Hg) as (c & H1 & H2 & H3). by exists c.
  - apply Hs. unfold CloudFunction.generateBackground.
    destruct (truthy (bodyTheme _)); [|apply sparing_of_quiet, quiet_respond].
    destruct (truthy (bodyEmail _)); [|apply sparing_of_quiet, quiet_respond].
    apply sparing_bind_l; [apply quiet_getConfig|]. intros cfg.
    destruct (truthy (API_KEY cfg)); [|apply sparing_of_quiet, quiet_respond].
    apply sparing_tryCatch_r.
    + unfold CloudFunction.generateBackgroundBody.
      apply sparing_bind_l; [apply quiet_runTransaction|]. intros _.
      apply sparing_bind_r; [apply sparing_callProvider|]. intros response.
      destruct (extractImage response); [|apply quiet_throw].
      apply quiet_bind; [apply quiet_docGet|]. intros; apply quiet_respond.
    + intros msg. apply quiet_bind; [|intros; apply quiet_respond].
      destruct (CloudFunction.refundEligible msg);
        [apply quiet_cloud_refund|apply quiet_ret].
Qed.

Lemma at_most_one_provider_call_witness :
  providerLog
    (endpointEffect DevCapture (Sample.post None)
       (Sample.world
          (Sample.env Firestore (Resolves Sample.imageResponse)
             Sample.completed)
          (Sample.one 3) []))
  = [].
Proof.
  destruct (at_most_one_provider_call DevCapture (Sample.post None)
              (Sample.world
                 (Sample.env Firestore (Resolves Sample.imageResponse)
                    Sample.completed)
                 (Sample.one 3) [])) as (calls & Hlog & _ & Hnone).
  rewrite Hlog, (Hnone eq_refl). reflexivity.
Defined.



(** ** The gateways, continued *)

(** X14. A delivered image, in both gateways, on reachable storage with at
    least one credit: the answer is 200 with the data URL of the first
    inline part and the balance minus 1, which is also the balance storage
    holds afterwards; the provider has been called exactly once, with the
    caller's prompt as it came (development server) or with the theme set
    into the template (Cloud Function). *)
Theorem delivered_image_is_charged_once (w : World) (req : Request)
    (prompt theme e imageUrl : string) (a : Account)
    (r : GenerateContentResponse) :
  storageFaults w = [] ->
  users w !! e = Some a ->
  1 <= credits a ->
  truthy (API_KEY (config w)) <> None ->
  isMethod req "POST" = true ->
  truthy (bodyPrompt (body req)) = Some prompt ->
  truthy (bodyTheme (body req)) = Some theme ->
  truthy (bodyEmail (body req)) = Some e ->
  (forall model p, generateContent (config w) model p = Resolves r) ->
  extractImage r = Some imageUrl ->
  let answer := {| status := 200; json := JImage imageUrl (credits a - 1) |} in
  let after (sent : string) (w' : World) :=
    users w' = <[e := withCredits (credits a - 1) a]> (users w)
    /\ providerLog w'
       = (providerLog w ++ [("gemini-2.5-flash-image", sent)])%list in
  (exists w', ServerProxy.handleGenerateBackground req w = (Returned answer, w')
              /\ after prompt w')
  /\ (exists w', CloudFunction.generateBackground req w = (Returned answer, w')
                 /\ after (CloudFunction.promptOf theme) w').
Proof.
  intros Hf Hl Hc Hk Hm Hp Hth He Hres Himg answer after.
  subst answer after. cbv beta. split.
  - eexists. split.
    + unfold ServerProxy.handleGenerateBackground. rewrite Hm, Hp, He.
      cbv beta iota zeta delta [negb]. unfold tryCatch.
      rewrite (server_body_throws w prompt e a Hf Hl Hc
                 (apiKeyOf_API_KEY _ Hk)).
      rewrite Hres, Himg. reflexivity.
    + by unfold charged.
  - eexists. split.
    + unfold CloudFunction.generateBackground. rewrite Hth, He.
      unfold bind at 1. unfold getConfig.
      destruct (truthy (API_KEY (config w))); [|done].
      unfold tryCatch.
      rewrite (cloud_body_throws w theme e a Hf Hl Hc).
      rewrite Hres, Himg. reflexivity.
    + by unfold charged.
Qed.

Lemma delivered_image_is_charged_once_witness :
  let w := Sample.world
             (Sample.env Firestore (Resolves Sample.imageResponse)
                Sample.declined)
             (Sample.one 5) [] in
  exists w',
    ServerProxy.handleGenerateBackground (Sample.post None) w
    = (Returned {| status := 200;
                   json := JImage "data:image/png;base64,QUJD" 4 |}, w')
    /\ users w' = <[Sample.address := Sample.account 4]> (users w)
    /\ providerLog w' = [("gemini-2.5-flash-image", "a hiker at dawn")].
Proof.
  intros w.
  exact (proj1 (delivered_image_is_charged_once w (Sample.post None)
                  "a hiker at dawn" "alpine dawn" Sample.address
                  "data:image/png;base64,QUJD" (Sample.account 5)
                  Sample.imageResponse eq_refl eq_refl
                  ltac:(simpl; lia) ltac:(discriminate) eq_refl eq_refl
                  eq_refl eq_refl ltac:(reflexivity) eq_refl)).
Defined.

(** X15. The two gateways treat a missing API key differently. The Cloud
    Function checks the key before it touches storage: it answers 500
    "Server misconfiguration: API Key missing" and nothing changes. The
    development server looks for the key only after the reservation: with
    neither [GEMINI_API_KEY] nor [API_KEY] set it answers 500 "API Key not
    found" without calling the provider, and the credit it has taken is
    not given back. *)
Theorem missing_key_before_or_after_the_charge (w : World) (req : Request)
    (prompt theme e : string) (a : Account) :
  storageFaults w = [] ->
  users w !! e = Some a ->
  1 <= credits a ->
  truthy (API_KEY (config w)) = None ->
  truthy (GEMINI_API_KEY (config w)) = None ->
  isMethod req "POST" = true ->
  truthy (bodyPrompt (body req)) = Some prompt ->
  truthy (bodyTheme (body req)) = Some theme ->
  truthy (bodyEmail (body req)) = Some e ->
  CloudFunction.generateBackground req w
  = (Returned {| status := 500;
                 json := JMessage "Server misconfiguration: API Key missing" |},
     w)
  /\ ServerProxy.handleGenerateBackground req w
     = (Returned {| status := 500; json := JMessage "API Key not found" |},
        setUsers (<[e := withCredits (credits a - 1) a]> (users w)) w).
Proof.
  intros Hf Hl Hc Hk Hg Hm Hp Hth He. split.
  - unfold CloudFunction.generateBackground. rewrite Hth, He.
    unfold bind, getConfig. by rewrite Hk.
  - unfold ServerProxy.handleGenerateBackground. rewrite Hm, Hp, He.
    cbv beta iota zeta delta [negb]. unfold tryCatch.
    unfold ServerProxy.generateBackgroundBody.
    unfold bind at 1. rewrite (deduct_success w e 1 a Hf Hl Hc).
    unfold bind at 1. unfold getConfig. cbn [config setUsers].
    unfold ServerProxy.apiKeyOf. rewrite Hg, Hk. reflexivity.
Qed.

Lemma missing_key_before_or_after_the_charge_witness :
  let cfg := {| backend := Firestore; now := 0;
                API_KEY := Some ""; GEMINI_API_KEY := None;
                PAYPAL_CLIENT_ID := None; PAYPAL_CLIENT_SECRET := None;
                generateContent := fun _ _ => Resolves Sample.imageResponse;
                tokenFetch := FetchFails "down";
                captureFetch := fun _ _ => FetchFails "down" |} in
  let w := Sample.world cfg (Sample.one 5) [] in
  CloudFunction.generateBackground (Sample.post None) w
  = (Returned {| status := 500;
                 json := JMessage "Server misconfiguration: API Key missing" |},
     w)
  /\ ServerProxy.handleGenerateBackground (Sample.post None) w
     = (Returned {| status := 500; json := JMessage "API Key not found" |},
        setUsers (<[Sample.address := Sample.account 4]> (users w)) w).
Proof.
  intros cfg w.
  apply (missing_key_before_or_after_the_charge w (Sample.post None)
           "a hiker at dawn" "alpine dawn" Sample.address (Sample.account 5));
    [reflexivity | reflexivity | simpl; lia | reflexivity | reflexivity
    | reflexivity | reflexivity | reflexivity | reflexivity].
Defined.

(** X16. The refund condition of the Cloud Function also fires when no
    credit was taken: if storage rejects the reservation transaction with an
    error whose message contains "AI" (as "UNAVAILABLE" does) and the next
    storage call goes through, the handler answers 500 with that message,
    never calls the provider, and increments the balance of the account by
    1 although nothing had been deducted. *)
Theorem cloud_refunds_a_reservation_that_never_happened (w : World)
    (req : Request) (theme e m : string) (a : Account)
    (rest : list (option string)) :
  storageFaults w = Some m :: rest ->
  hd None rest = None ->
  includes "AI" m = true ->
  users w !! e = Some a ->
  truthy (API_KEY (config w)) <> None ->
  truthy (bodyTheme (body req)) = Some theme ->
  truthy (bodyEmail (body req)) = Some e ->
  exists w',
    CloudFunction.generateBackground req w
    = (Returned {| status := 500; json := JMessage m |}, w')
    /\ users w' = <[e := withCredits (credits a + 1) a]> (users w)
    /\ providerLog w' = providerLog w.
Proof.
  intros Hf Hrest Hai Hl Hk Hth He.
  assert (Hcl : CloudFunction.refundEligible m = true).
  { unfold CloudFunction.refundEligible. by rewrite Hai. }
  destruct (refund_eligible_status m (or_intror Hcl)) as [Hst Hor].
  unfold CloudFunction.generateBackground. rewrite Hth, He.
  unfold bind at 1. unfold getConfig.
  destruct (truthy (API_KEY (config w))); [|done].
  unfold tryCatch at 1. unfold CloudFunction.generateBackgroundBody.
  unfold bind at 1. unfold runTransaction at 1. unfold storageCall at 1.
  rewrite Hf. rewrite Hcl. unfold bind at 1.
  unfold CloudFunction.refund, tryCatch, docUpdate, storageCall, updateIn.
  cbn [storageFaults setFaults users config].
  destruct rest as [|[f|] rest']; [| discriminate Hrest |];
    cbn [storageFaults setFaults users config]; rewrite Hl;
    unfold respond, ret; rewrite Hst, Hor; eexists; split; try reflexivity;
    cbn [users setUsers setFaults providerLog]; by split.
Qed.

Lemma cloud_refunds_a_reservation_that_never_happened_witness :
  let w := Sample.world
             (Sample.env Firestore (Resolves Sample.imageResponse)
                Sample.declined)
             (Sample.one 5) [Some "14 UNAVAILABLE: connection lost"] in
  exists w',
    CloudFunction.generateBackground (Sample.post None) w
    = (Returned {| status := 500;
                   json := JMessage "14 UNAVAILABLE: connection lost" |}, w')
    /\ users w' = <[Sample.address := Sample.account 6]> (users w)
    /\ providerLog w' = [].
Proof.
  intros w.
  apply (cloud_refunds_a_reservation_that_never_happened w (Sample.post None)
           "alpine dawn" Sample.address "14 UNAVAILABLE: connection lost"
           (Sample.account 5) []);
    [reflexivity | reflexivity | reflexivity | reflexivity | discriminate
    | reflexivity | reflexivity].
Defined.

(** X17. [handleGeneratePrompt] takes the credit like the image gateway but
    has no refund and no 403: on reachable storage, a balance below 1 is
    answered 500 "Insufficient credits"; with a credit and a key, a provider
    error of any message is answered 500 with that message and the credit
    stays taken; and a response of the provider is answered 200 with its
    text and the balance minus 1. *)
Theorem prompt_endpoint_charges_and_never_refunds
    (textOf : GenerateContentResponse -> option string)
    (w : World) (req : Request) (theme e : string) (a : Account) :
  storageFaults w = [] ->
  users w !! e = Some a ->
  isMethod req "POST" = true ->
  truthy (bodyTheme (body req)) = Some theme ->
  truthy (bodyEmail (body req)) = Some e ->
  let sent := ServerProxy.promptInstructionOf theme in
  (credits a < 1 ->
     ServerProxy.handleGeneratePrompt textOf req w
     = (Returned {| ServerProxy.promptStatus := 500;
                    ServerProxy.promptJson :=
                      ServerProxy.PMessage "Insufficient credits" |}, w))
  /\ (1 <= credits a -> ServerProxy.apiKeyOf (config w) <> None ->
      ServerProxy.handleGeneratePrompt textOf req w
      = match generateContent (config w) "gemini-3-flash-preview" sent with
        | Rejects m =>
            (Returned {| ServerProxy.promptStatus := 500;
                         ServerProxy.promptJson :=
                           ServerProxy.PMessage
                             (orElse m "Internal Server Error") |},
             charged e a "gemini-3-flash-preview" sent w)
        | Resolves r =>
            (Returned {| ServerProxy.promptStatus := 200;
                         ServerProxy.promptJson :=
                           ServerProxy.PPrompt (textOf r) (credits a - 1) |},
             charged e a "gemini-3-flash-preview" sent w)
        end).
Proof.
  intros Hf Hl Hm Hth He sent. subst sent. split.
  - intros Hc. unfold ServerProxy.handleGeneratePrompt. rewrite Hm, Hth, He.
    cbv beta iota zeta delta [negb]. unfold tryCatch.
    unfold ServerProxy.generatePromptBody. unfold bind at 1.
    by rewrite (deduct_insufficient w e 1 a Hf Hl Hc).
  - intros Hc Hk. unfold ServerProxy.handleGeneratePrompt.
    rewrite Hm, Hth, He. cbv beta iota zeta delta [negb]. unfold tryCatch.
    unfold ServerProxy.generatePromptBody.
    unfold bind at 1. rewrite (deduct_success w e 1 a Hf Hl Hc).
    unfold bind at 1. unfold getConfig. cbn [config setUsers].
    destruct (ServerProxy.apiKeyOf (config w)) as [k|]; [|done].
    unfold bind at 1. unfold callProvider. cbn [config setUsers].
    destruct (generateContent _ _ _) as [r|m]; [|done].
    unfold_async. cbn [storageFaults logCall setUsers users]. rewrite Hf.
    cbn [users]. by rewrite lookup_insert_eq.
Qed.

Lemma prompt_endpoint_charges_and_never_refunds_witness :
  let w := Sample.world
             (Sample.env Firestore (Rejects "[GoogleGenAI Error]: quota")
                Sample.declined)
             (Sample.one 5) [] in
  exists w',
    ServerProxy.handleGeneratePrompt (fun _ => None) (Sample.post None) w
    = (Returned {| ServerProxy.promptStatus := 500;
                   ServerProxy.promptJson :=
                     ServerProxy.PMessage "[GoogleGenAI Error]: quota" |}, w')
    /\ users w' !! Sample.address = Some (Sample.account 4).
Proof.
  intros w.
  destruct (prompt_endpoint_charges_and_never_refunds (fun _ => None) w
              (Sample.post None) "alpine dawn" Sample.address
              (Sample.account 5)) as [_ H];
    [reflexivity | reflexivity | reflexivity | reflexivity | reflexivity |].
  eexists. split; [apply H; [simpl; lia | discriminate]|]. reflexivity.
Defined.

(** ** The refund conditions and the extraction of the image *)

Lemma append_cons (ch : Ascii.ascii) (a b : string) :
  String.append (String ch a) b = String ch (String.append a b).
Proof. reflexivity. Qed.

Lemma append_assoc (a b c : string) :
  String.append (String.append a b) c = String.append a (String.append b c).
Proof.
  induction a as [|ch a IH]; [done|]. by rewrite !append_cons, IH.
Qed.

Lemma prefix_iff (n s : string) :
  String.prefix n s = true <-> exists post, s = String.append n post.
Proof.
  revert s. induction n as [|ch n IH]; intros s.
  - split; [intros _; by exists s|by destruct s].
  - destruct s as [|ch' s]; simpl.
    { split; [done|]. intros [post H]. by rewrite append_cons in H. }
    destruct (Ascii.ascii_dec ch ch') as [->|Hne].
    + rewrite IH. split; intros [post H]; exists post;
        rewrite append_cons in *; congruence.
    + split; [done|]. intros [post H]. rewrite append_cons in H. congruence.
Qed.

Lemma includes_iff (n s : string) :
  includes n s = true
  <-> exists pre post, s = String.append pre (String.append n post).
Proof.
  induction s as [|ch s IH]; cbn [includes].
  - rewrite orb_false_r, prefix_iff. split.
    + intros [post H]. by exists "", post.
    + intros (pre & post & H). destruct pre as [|c pre];
        [by exists post|by rewrite append_cons in H].
  - rewrite orb_true_iff, prefix_iff, IH. split.
    + intros [[post H] | (pre & post & H)].
      * by exists "", post.
      * exists (String ch pre), post. by rewrite append_cons, H.
    + intros (pre & post & H). destruct pre as [|c pre].
      * left. by exists post.
      * right. exists pre, post. rewrite append_cons in H. congruence.
Qed.

Lemma includes_trans (a b s : string) :
  includes a b = true -> includes b s = true -> includes a s = true.
Proof.
  rewrite !includes_iff. intros (p1 & q1 & ->) (p2 & q2 & ->).
  exists (String.append p2 p1), (String.append q1 q2).
  by rewrite !append_assoc.
Qed.

(** X18. The refund condition of the Cloud Function is the wider one: it
    holds exactly when the message contains "AI" (its second test, for
    "GoogleGenAI", never adds a case), and every message that the
    development server's gateway refunds is refunded by the Cloud Function
    too. *)
Theorem cloud_refund_condition_is_the_wider (m : string) :
  CloudFunction.refundEligible m = includes "AI" m
  /\ (ServerProxy.refundEligible m = true ->
      CloudFunction.refundEligible m = true).
Proof.
  assert (Hsub : includes "GoogleGenAI" m = true -> includes "AI" m = true).
  { by apply includes_trans. }
  split.
  - unfold CloudFunction.refundEligible.
    destruct (includes "AI" m) eqn:Hai; [done|].
    destruct (includes "GoogleGenAI" m); [|done].
    discriminate (Hsub eq_refl).
  - unfold ServerProxy.refundEligible, CloudFunction.refundEligible.
    rewrite !orb_true_iff. intros [Heq | Hg].
    + apply String.eqb_eq in Heq. subst m. by left.
    + left. by apply Hsub.
Qed.

Lemma cloud_refund_condition_is_the_wider_witness :
  CloudFunction.refundEligible "[GoogleGenAI Error]: quota exceeded" = true.
Proof.
  apply (proj2 (cloud_refund_condition_is_the_wider
                  "[GoogleGenAI Error]: quota exceeded")).
  reflexivity.
Defined.

Lemma firstInlineData_none (ps : list Part) :
  firstInlineData ps = None <-> Forall (fun p => inlineData p = None) ps.
Proof.
  induction ps as [|p ps IH]; simpl; [by split|].
  destruct (inlineData p) as [d|] eqn:Hd.
  - split; [done|]. intros H. apply Forall_cons in H as [H _]. congruence.
  - rewrite IH. split; [by intros; apply Forall_cons|].
    intros H. by apply Forall_cons in H as [_ H].
Qed.

(** X19. The image is taken from the first candidate only, and from its
    first part that carries inline data: parts without inline data before it
    are skipped and everything after it is ignored; no image is found
    exactly when no part of that candidate carries inline data; and a URL
    that is found is never empty: it starts with "data:". *)
Theorem extractImage_takes_first_inline_part (candidate : Candidate)
    (others : list Candidate) (ps : list Part) :
  content candidate = Some (mkContent (Some ps)) ->
  let r := mkGenResponse (Some (candidate :: others)) in
  (forall before part after d,
      ps = (before ++ part :: after)%list ->
      Forall (fun p => inlineData p = None) before ->
      inlineData part = Some d ->
      extractImage r
      = Some (String.append "data:"
                (String.append (mimeType d)
                   (String.append ";base64," (data d)))))
  /\ (extractImage r = None <-> Forall (fun p => inlineData p = None) ps)
  /\ (forall url, extractImage r = Some url ->
        String.prefix "data:" url = true).
Proof.
  intros Hc r. subst r. unfold extractImage. cbn [candidates].
  rewrite Hc. cbn [parts]. split; [|split].
  - intros before part after d -> Hb Hd. clear Hc.
    induction before as [|p before IH]; simpl.
    + by rewrite Hd.
    + apply Forall_cons in Hb as [Hp Hb]. rewrite Hp. by apply IH.
  - apply firstInlineData_none.
  - intros url. clear Hc. induction ps as [|p ps IH]; simpl; [done|].
    destruct (inlineData p) as [d|]; [|done]. intros [= <-].
    apply prefix_iff. by eexists.
Qed.

Lemma extractImage_takes_first_inline_part_witness :
  extractImage
    (mkGenResponse
       (Some [mkCandidate
                (Some (mkContent
                         (Some [mkPart (Some "caption") None;
                                mkPart None
                                  (Some (mkInlineData "image/png" "QUJD"));
                                mkPart None
                                  (Some (mkInlineData "image/jpeg" "WFla"))])));
              mkCandidate None]))
  = Some "data:image/png;base64,QUJD".
Proof.
  destruct (extractImage_takes_first_inline_part
              (mkCandidate
                 (Some (mkContent
                          (Some [mkPart (Some "caption") None;
                                 mkPart None
                                   (Some (mkInlineData "image/png" "QUJD"));
                                 mkPart None
                                   (Some (mkInlineData "image/jpeg"
                                            "WFla"))]))))
              [mkCandidate None] _ eq_refl) as [H _].
  apply (H [mkPart (Some "caption") None]
           (mkPart None (Some (mkInlineData "image/png" "QUJD")))
           [mkPart None (Some (mkInlineData "image/jpeg" "WFla"))]
           (mkInlineData "image/png" "QUJD"));
    [reflexivity | by repeat constructor | reflexivity].
Defined.

(** ** The clients *)

Lemma fetch_delivers
    (router : string -> string -> option (Request -> Async Response))
    (verb path : string) (query : option string) (payload : RequestBody)
    (b : Browser) (handler : Request -> Async Response) (resp : Response)
    (w' : World) :
  networkFaults b = [] ->
  router verb path = Some handler ->
  handler (mkRequest verb query payload) (world b) = (Returned resp, w') ->
  fetchFrom router verb path query payload b
  = (Returned (JsonReply resp),
     {| world := w'; networkFaults := []; pageKey := pageKey b |}).
Proof.
  intros Hn Hr Hh. unfold fetchFrom. rewrite Hn, Hr.
  unfold inWorld, tryCatch, bind, ret. by rewrite Hh, Hn.
Qed.

Lemma truthy_nonempty (e : string) : e <> "" -> truthy (Some e) = Some e.
Proof. intros He. simpl. by destruct (String.eqb_spec e ""). Qed.

Lemma page_request_reserves (e : string) (amount : option Z) :
  e <> "" ->
  reserves e (mkRequest "POST" None (mkBody (Some e) None None None amount)).
Proof. intros He. split; [done|by apply truthy_nonempty]. Qed.

Lemma refund_handler_accepts (w : World) (req : Request) (e : string)
    (a : Account) :
  storageFaults w = [] -> reserves e req -> users w !! e = Some a ->
  ServerProxy.handleRefundCredit req w
  = (Returned {| status := 200; json := JCredits (credits a + 1) |},
     setUsers (<[e := withCredits (credits a + 1) a]> (users w)) w).
Proof.
  intros Hf [Hm He] Hl. unfold ServerProxy.handleRefundCredit.
  rewrite Hm, He. cbv beta iota zeta delta [negb tryCatch bind].
  by rewrite (refund_transaction_success w e 1 a Hf Hl).
Qed.

(** The refund of the page on a quiet network and reachable storage. *)
Lemma page_refund_runs (b : Browser) (e : string) (a : Account) :
  networkFaults b = [] -> storageFaults (world b) = [] -> e <> "" ->
  users (world b) !! e = Some a ->
  DevClient.refund e b
  = (Returned tt,
     {| world := setUsers (<[e := withCredits (credits a + 1) a]>
                             (users (world b))) (world b);
        networkFaults := []; pageKey := pageKey b |}).
Proof.
  intros Hn Hf He Hl. unfold DevClient.refund, pcatch, pbind.
  rewrite (fetch_delivers DevServer.route "POST" "/api/refund-credit" None _
             b ServerProxy.handleRefundCredit _ _ Hn eq_refl
             (refund_handler_accepts (world b) _ e a Hf
                (page_request_reserves e (Some 1) He) Hl)).
  done.
Qed.

(** X20. The page refunds a deduction that was refused. With a balance
    below 1 the development server answers the deduction with 403; the
    page's [generateOutdoorBackground] takes that for a failed generation,
    requests a refund, and returns the failure value (no image, credits
    -1): the provider has not been called and the account has gained a
    credit it never paid. *)
Theorem page_refunds_a_refused_deduction (b : Browser) (prompt e : string)
    (a : Account) :
  networkFaults b = [] ->
  storageFaults (world b) = [] ->
  e <> "" ->
  users (world b) !! e = Some a ->
  credits a < 1 ->
  exists b',
    DevClient.generateOutdoorBackground prompt e b
    = (Returned {| resultImageUrl := None; resultCredits := Some (-1) |}, b')
    /\ users (world b')
       = <[e := withCredits (credits a + 1) a]> (users (world b))
    /\ providerLog (world b') = providerLog (world b).
Proof.
  intros Hn Hf He Hl Hc. eexists. split.
  - unfold DevClient.generateOutdoorBackground, pcatch.
    unfold DevClient.generateBody. unfold pbind at 1.
    rewrite (fetch_delivers DevServer.route "POST" "/api/deduct-credit" None
               _ b ServerProxy.handleDeductCredit _ _ Hn eq_refl
               (deduct_handler_rejects (world b) _ e a Hf
                  (page_request_reserves e (Some 1) He) Hl Hc)).
    unfold pbind at 1. cbn [replyOk replyStatus status negb andb Z.leb
                              Z.compare Pos.compare Pos.compare_cont].
    unfold pbind at 1. cbn [replyJson json pret messageField].
    unfold pthrow at 1. unfold pbind at 1.
    rewrite (page_refund_runs _ e a); done.
  - by split.
Qed.

Lemma page_refunds_a_refused_deduction_witness :
  let b := mkBrowser
             (Sample.world
                (Sample.env Firestore (Resolves Sample.imageResponse)
                   Sample.declined)
                (Sample.one 0) [])
             [] (Some "key") in
  exists b',
    DevClient.generateOutdoorBackground "a hiker at dawn" Sample.address b
    = (Returned {| resultImageUrl := None; resultCredits := Some (-1) |}, b')
    /\ users (world b')
       = <[Sample.address := Sample.account 1]> (users (world b))
    /\ providerLog (world b') = [].
Proof.
  intros b.
  apply (page_refunds_a_refused_deduction b "a hiker at dawn" Sample.address
           (Sample.account 0));
    [reflexivity | reflexivity | discriminate | reflexivity | simpl; lia].
Defined.

Lemma insert_restore (u : gmap string Account) (e : string) (a : Account) :
  u !! e = Some a ->
  <[e := withCredits (credits (withCredits (credits a - 1) a) + 1)
           (withCredits (credits a - 1) a)]>
    (<[e := withCredits (credits a - 1) a]> u) = u.
Proof.
  intros Hl. rewrite insert_insert_eq.
  replace (withCredits (credits (withCredits (credits a - 1) a) + 1)
             (withCredits (credits a - 1) a)) with a.
  - by apply insert_id.
  - destruct a as [em c p t]. unfold withCredits. simpl. f_equal. lia.
Qed.

(** The [try] block of the page up to the provider call, when the deduction
    is accepted. *)
Lemma page_body_after_deduction (b : Browser) (prompt e : string)
    (a : Account) :
  networkFaults b = [] ->
  storageFaults (world b) = [] ->
  e <> "" ->
  users (world b) !! e = Some a ->
  1 <= credits a ->
  let paid := setUsers (<[e := withCredits (credits a - 1) a]>
                          (users (world b))) (world b) in
  DevClient.generateBody prompt e b
  = match truthy (pageKey b) with
    | None => (Thrown "API Key not found", mkBrowser paid [] (pageKey b))
    | Some _ =>
        let called := logCall "gemini-2.5-flash-image" prompt paid in
        match generateContent (config (world b)) "gemini-2.5-flash-image"
                prompt with
        | Rejects m => (Thrown m, mkBrowser called [] (pageKey b))
        | Resolves r =>
            match DevClient.extractImage r with
            | None => (Thrown "No image generated",
                       mkBrowser called [] (pageKey b))
            | Some imageUrl =>
                (Returned {| resultImageUrl := Some imageUrl;
                             resultCredits := Some (credits a - 1) |},
                 mkBrowser called [] (pageKey b))
            end
        end
    end.
Proof.
  intros Hn Hf He Hl Hc paid. subst paid.
  unfold DevClient.generateBody. unfold pbind at 1.
  rewrite (fetch_delivers DevServer.route "POST" "/api/deduct-credit" None
             _ b ServerProxy.handleDeductCredit _ _ Hn eq_refl
             (deduct_handler_accepts (world b) _ e a Hf
                (page_request_reserves e (Some 1) He) Hl Hc)).
  unfold pbind at 1. cbn [replyOk replyStatus status negb andb Z.leb
                            Z.compare Pos.compare Pos.compare_cont].
  cbn [replyJson json pret creditsField].
  unfold pbind at 1. cbn [pageKey].
  destruct (truthy (pageKey b)) as [k|]; [|done].
  unfold pbind, inWorld, callProvider. cbn [world config setUsers].
  destruct (generateContent _ _ _) as [r|m]; [|done].
  by destruct (DevClient.extractImage r).
Qed.

(** X21. In the page-driven flow a failed generation nets to zero whatever
    the failure: with a credit, a quiet network and reachable storage, when
    the key is missing from the page, or the provider rejects the call with
    any message at all, or its response holds no image, the page requests
    the refund and returns the failure value, and the accounts are exactly
    as before the request. *)
Theorem page_failure_nets_to_zero (b : Browser) (prompt e : string)
    (a : Account) :
  networkFaults b = [] ->
  storageFaults (world b) = [] ->
  e <> "" ->
  users (world b) !! e = Some a ->
  1 <= credits a ->
  match truthy (pageKey b) with
  | None => True
  | Some _ =>
      match generateContent (config (world b)) "gemini-2.5-flash-image"
              prompt with
      | Rejects _ => True
      | Resolves r => DevClient.extractImage r = None
      end
  end ->
  exists b',
    DevClient.generateOutdoorBackground prompt e b
    = (Returned {| resultImageUrl := None; resultCredits := Some (-1) |}, b')
    /\ users (world b') = users (world b).
Proof.
  intros Hn Hf He Hl Hc Hfail.
  assert (Hrefund : forall w1 m,
    users w1 = <[e := withCredits (credits a - 1) a]> (users (world b)) ->
    storageFaults w1 = [] ->
    exists b',
      pcatch (fun b0 => (Thrown m, mkBrowser w1 [] (pageKey b)))
        (fun _ =>
           pawait _ <- DevClient.refund e ;
           pret {| resultImageUrl := None; resultCredits := Some (-1) |}) b
      = (Returned {| resultImageUrl := None; resultCredits := Some (-1) |}, b')
      /\ users (world b') = users (world b)).
  { intros w1 m Hu Hf1. unfold pcatch, pbind.
    rewrite (page_refund_runs (mkBrowser w1 [] (pageKey b)) e
               (withCredits (credits a - 1) a));
      [|done|done|done|cbn [world]; rewrite Hu; apply lookup_insert_eq].
    eexists. split; [reflexivity|].
    cbn [world users setUsers]. rewrite Hu. by apply insert_restore. }
  unfold DevClient.generateOutdoorBackground.
  pose proof (page_body_after_deduction b prompt e a Hn Hf He Hl Hc) as Hbody.
  cbv zeta in Hbody.
  destruct (truthy (pageKey b)) as [k|].
  - destruct (generateContent _ _ _) as [r|m].
    + rewrite Hfail in Hbody.
      destruct (Hrefund
        (logCall "gemini-2.5-flash-image" prompt
           (setUsers (<[e := withCredits (credits a - 1) a]>
                        (users (world b))) (world b)))
        "No image generated" eq_refl Hf) as (b' & Hr & Hu).
      exists b'. split; [|done]. unfold pcatch in *. by rewrite Hbody.
    + destruct (Hrefund
        (logCall "gemini-2.5-flash-image" prompt
           (setUsers (<[e := withCredits (credits a - 1) a]>
                        (users (world b))) (world b)))
        m eq_refl Hf) as (b' & Hr & Hu).
      exists b'. split; [|done]. unfold pcatch in *. by rewrite Hbody.
  - destruct (Hrefund
      (setUsers (<[e := withCredits (credits a - 1) a]>
                   (users (world b))) (world b))
      "API Key not found" eq_refl Hf) as (b' & Hr & Hu).
    exists b'. split; [|done]. unfold pcatch in *. by rewrite Hbody.
Qed.

Lemma page_failure_nets_to_zero_witness :
  let b := mkBrowser
             (Sample.world
                (Sample.env Firestore (Rejects "fetch failed") Sample.declined)
                (Sample.one 5) [])
             [] (Some "key") in
  exists b',
    DevClient.generateOutdoorBackground "a hiker at dawn" Sample.address b
    = (Returned {| resultImageUrl := None; resultCredits := Some (-1) |}, b')
    /\ users (world b') = users (world b).
Proof.
  intros b.
  apply (page_failure_nets_to_zero b "a hiker at dawn" Sample.address
           (Sample.account 5));
    [reflexivity | reflexivity | discriminate | reflexivity | simpl; lia
    | exact I].
Defined.

(** X22. A delivered image in the page-driven flow: with a credit, a quiet
    network, reachable storage and a key, when the provider's response
    carries inline data, the page returns the data URL (with [image/png]
    standing in for a missing MIME type) together with the balance the
    deduction answered, which is the stored balance: the balance before
    minus 1; no refund is requested. *)
Theorem page_delivers_and_keeps_the_charge (b : Browser)
    (prompt e key imageUrl : string) (a : Account)
    (r : GenerateContentResponse) :
  networkFaults b = [] ->
  storageFaults (world b) = [] ->
  e <> "" ->
  users (world b) !! e = Some a ->
  1 <= credits a ->
  truthy (pageKey b) = Some key ->
  generateContent (config (world b)) "gemini-2.5-flash-image" prompt
  = Resolves r ->
  DevClient.extractImage r = Some imageUrl ->
  exists b',
    DevClient.generateOutdoorBackground prompt e b
    = (Returned {| resultImageUrl := Some imageUrl;
                   resultCredits := Some (credits a - 1) |}, b')
    /\ users (world b')
       = <[e := withCredits (credits a - 1) a]> (users (world b))
    /\ providerLog (world b')
       = (providerLog (world b)
          ++ [("gemini-2.5-flash-image", prompt)])%list.
Proof.
  intros Hn Hf He Hl Hc Hk Hres Himg.
  pose proof (page_body_after_deduction b prompt e a Hn Hf He Hl Hc) as Hbody.
  cbv zeta in Hbody. rewrite Hk, Hres, Himg in Hbody.
  eexists. split.
  - unfold DevClient.generateOutdoorBackground, pcatch. by rewrite Hbody.
  - by split.
Qed.

Lemma page_delivers_and_keeps_the_charge_witness :
  let b := mkBrowser
             (Sample.world
                (Sample.env Firestore
                   (Resolves
                      (mkGenResponse
                         (Some [mkCandidate
                                  (Some (mkContent
                                           (Some [mkPart None
                                                    (Some (mkInlineData ""
                                                             "QUJD"))])))])))
                   Sample.declined)
                (Sample.one 5) [])
             [] (Some "key") in
  exists b',
    DevClient.generateOutdoorBackground "a hiker at dawn" Sample.address b
    = (Returned {| resultImageUrl := Some "data:image/png;base64,QUJD";
                   resultCredits := Some 4 |}, b')
    /\ users (world b')
       = <[Sample.address := Sample.account 4]> (users (world b))
    /\ providerLog (world b')
       = [("gemini-2.5-flash-image", "a hiker at dawn")].
Proof.
  intros b.
  apply (page_delivers_and_keeps_the_charge b "a hiker at dawn"
           Sample.address "key" "data:image/png;base64,QUJD"
           (Sample.account 5)
           (mkGenResponse
              (Some [mkCandidate
                       (Some (mkContent
                                (Some [mkPart None
                                         (Some (mkInlineData ""
                                                  "QUJD"))])))])));
    [reflexivity | reflexivity | discriminate | reflexivity | simpl; lia
    | reflexivity | reflexivity | reflexivity].
Defined.

Lemma pyields_bind {A B} (P : B -> Prop) (m : Page A) (k : A -> Page B) :
  (forall a, pyields P (k a)) -> pyields P (pbind m k).
Proof.
  intros Hk b. unfold pbind. destruct (m b) as [[a|msg] b']; [|done].
  apply Hk.
Qed.

Lemma pyields_throw {A} (P : A -> Prop) (m : string) : pyields P (pthrow m).
Proof. by intros b. Qed.

(** The only reply of the Cloud Function's generation route that counts as
    [ok] is the one that carries the image. *)
Lemma cloud_ok_reply_has_image (req : Request) :
  yields (fun r => replyOk (JsonReply r) = true ->
                   exists url c, json r = JImage url c)
    (CloudFunction.generateBackground req).
Proof.
  assert (Hno : forall code j, code = 400 \/ code = 403 \/ code = 500 ->
    yields (fun r => replyOk (JsonReply r) = true ->
                     exists url c, json r = JImage url c) (respond code j)).
  { intros code j Hc. apply yields_ret.
    by destruct Hc as [-> | [-> | ->]]. }
  assert (Herr : forall m, statusOfError m = 400 \/ statusOfError m = 403
                           \/ statusOfError m = 500).
  { intros m. unfold statusOfError.
    destruct (String.eqb m "Insufficient credits"); auto. }
  unfold CloudFunction.generateBackground.
  destruct (truthy (bodyTheme _)) as [theme|]; [|apply Hno; auto].
  destruct (truthy (bodyEmail _)) as [e|]; [|apply Hno; auto].
  apply yields_bind. intros cfg.
  destruct (truthy (API_KEY cfg)); [|apply Hno; auto].
  intros w. unfold tryCatch.
  destruct (CloudFunction.generateBackgroundBody theme e w)
    as [[r|m] w'] eqn:Hb.
  - cbn [fst]. intros _.
    revert Hb. unfold CloudFunction.generateBackgroundBody, bind.
    destruct (runTransaction _ w) as [[x|m] w1]; [|discriminate].
    destruct (callProvider _ _ w1) as [[resp|m] w2]; [|discriminate].
    destruct (extractImage resp) as [url|]; [|discriminate].
    destruct (docGet e w2) as [[doc|m] w3]; [|discriminate].
    unfold respond, ret. intros [= <- _]. by eexists _, _.
  - pose proof (yields_bind
      (fun r => replyOk (JsonReply r) = true ->
                exists url c, json r = JImage url c)
      (if CloudFunction.refundEligible m then CloudFunction.refund e
       else ret tt)
      (fun _ => respond (statusOfError m)
                  (JMessage (orElse m "Internal Server Error")))
      (fun _ => Hno _ _ (Herr m)) w') as H.
    exact H.
Qed.

(** X23. The generation functions of both clients never throw and have one
    failure value: for any state of network, storage and provider, and any
    arguments, [generateOutdoorBackground] returns, and a result without an
    image always carries credits -1, the value the user interface tests
    for. *)
Theorem clients_return_image_or_failure_value (b : Browser)
    (input e : string) :
  (exists r b',
      DevClient.generateOutdoorBackground input e b = (Returned r, b')
      /\ imageOrFailure r)
  /\ (exists r b',
      CloudClient.generateOutdoorBackground input e b = (Returned r, b')
      /\ imageOrFailure r).
Proof.
  split.
  - unfold DevClient.generateOutdoorBackground, pcatch.
    assert (Hbody : pyields (fun r => resultImageUrl r <> None)
                      (DevClient.generateBody input e)).
    { unfold DevClient.generateBody.
      apply pyields_bind. intros resp. apply pyields_bind. intros deducted.
      apply pyields_bind. intros [k|]; [|apply pyields_throw].
      apply pyields_bind. intros response.
      destruct (DevClient.extractImage response); [|apply pyields_throw].
      by intros b0. }
    specialize (Hbody b).
    destruct (DevClient.generateBody input e b) as [[r|m] b1].
    + exists r, b1. split; [done|]. by intros Hnone.
    + unfold pbind, DevClient.refund, pcatch, pret.
      destruct (pbind _ _ b1) as [[x|m'] b2]; eexists _, _; by split.
  - unfold CloudClient.generateOutdoorBackground, pcatch.
    set (body := pbind _ _).
    assert (Hbody : pyields (fun r => resultImageUrl r <> None) body).
    { subst body. intros b0. unfold pbind, fetchFrom.
      assert (Hsend : forall b1,
        match
          (let '(o, b') :=
             inWorld
               (tryCatch
                  (await r <- CloudFunction.generateBackground
                                (mkRequest "POST" None
                                   (mkBody (Some e) (Some input)
                                      None None None)) ;
                   ret (JsonReply r))
                  (fun _ => ret (PageReply 500))) b1 in
           match o with
           | Returned a =>
               (if negb (replyOk a)
                then
                  pawait errorData <- replyJson a ;
                  pthrow (match messageField errorData with
                          | Some m => orElse m "Backend generation failed"
                          | None => "Backend generation failed"
                          end)
                else
                  pawait j <- replyJson a ;
                  pret {| resultImageUrl := imageUrlField j;
                          resultCredits := creditsField j |}) b'
           | Thrown msg => (Thrown msg, b')
           end).1
        with
        | Returned r => resultImageUrl r <> None
        | Thrown _ => True
        end).
      { intros b1. unfold inWorld, tryCatch, bind, ret.
        pose proof (cloud_ok_reply_has_image
          (mkRequest "POST" None (mkBody (Some e) (Some input) None None None))
          (world b1)) as Hok.
        destruct (CloudFunction.generateBackground _ (world b1))
          as [[r|m] w1]; cbn [fst] in Hok.
        - destruct (replyOk (JsonReply r)) eqn:Hr; cbn [negb].
          + destruct (Hok eq_refl) as (url & c & Hj).
            unfold pbind, replyJson, pret. cbn [fst]. by rewrite Hj.
          + unfold pbind, replyJson, pret, pthrow. done.
        - done. }
      change (CloudClient.route "POST" "/api/generate-background")
        with (Some CloudFunction.generateBackground).
      destruct (networkFaults b0) as [|[f|] rest]; [apply Hsend|done|].
      apply Hsend. }
    specialize (Hbody b).
    destruct (body b) as [[r|m] b1].
    + exists r, b1. split; [done|]. by intros Hnone.
    + eexists _, _. by split.
Qed.
